(** * Fleet-utilisation statistics: a shallow embedding of
      [create_statistics.py] and its properties.

    The aggregators of the script are embedded as functions over a list of
    event rows.  Python dictionaries, [Counter]s and [defaultdict]s are
    finite maps (stdpp's [gmap]); exceptions are an error type; each
    [while x < stop: ...; x += timedelta(days=1)] loop runs over the list of
    the values [x] takes. *)

From Stdlib Require Import ZArith QArith Lia.
From stdpp Require Import gmap strings list fin_maps sorting.

Local Open Scope Z_scope.

(** ** Dates and times

    A naive [datetime] of second precision is the number of seconds since
    midnight of the (fictitious) day of ordinal 0, so that the day of a
    datetime is its quotient by 86400 and is the proleptic Gregorian ordinal
    that [date.toordinal()] returns.  A [timedelta] is a number of seconds.
    The bound of Python's calendar at the years 1 and 9999 is not
    modelled. *)

Module Datetime.

Definition day : Z := 86400.

(** [timedelta(days=n)] *)
Definition days (n : Z) : Z := n * day.

(** [datetime.date()], as an ordinal. *)
Definition date (t : Z) : Z := t / day.

(** [date.weekday()]: Monday is 0, Sunday is 6; CPython computes
    [(self.toordinal() + 6) % 7]. *)
Definition date_weekday (d : Z) : Z := (d + 6) mod 7.

(** [datetime.weekday()] *)
Definition weekday (t : Z) : Z := date_weekday (date t).

Definition day_name (w : Z) : string :=
  match w with
  | 0 => "Monday"
  | 1 => "Tuesday"
  | 2 => "Wednesday"
  | 3 => "Thursday"
  | 4 => "Friday"
  | 5 => "Saturday"
  | _ => "Sunday"
  end.

(** [x.strftime("%A")], on a date and on a datetime. *)
Definition date_strftime_A (d : Z) : string := day_name (date_weekday d).
Definition strftime_A (t : Z) : string := day_name (weekday t).

(** The constructor [datetime(y, m, d, hh, mm, ss)], with CPython's
    [_ymd2ord]. *)
Definition is_leap (y : Z) : bool :=
  (y mod 4 =? 0) && (negb (y mod 100 =? 0) || (y mod 400 =? 0)).

Definition days_before_year (y : Z) : Z :=
  let y1 := y - 1 in y1 * 365 + y1 / 4 - y1 / 100 + y1 / 400.

Definition days_before_month (y m : Z) : Z :=
  nth (Z.to_nat m) [0; 0; 31; 59; 90; 120; 151; 181; 212; 243; 273; 304; 334] 0
  + (if (2 <? m) && is_leap y then 1 else 0).

Definition ymd2ord (y m d : Z) : Z :=
  days_before_year y + days_before_month y m + d.

Definition make (y m d hh mm ss : Z) : Z :=
  ymd2ord y m d * day + hh * 3600 + mm * 60 + ss.

End Datetime.

(** ** The loop [while x < stop: ...; x += step]

    [walk] lists the values the loop variable takes.  The loop is left by
    its test; [iterations] is the number of turns, given to [walk] as the
    bound of its recursion ([walk_fuel] below shows that more changes
    nothing). *)

Fixpoint walk (fuel : nat) (step x stop : Z) : list Z :=
  match fuel with
  | O => []
  | S fuel' =>
      if bool_decide (x < stop) then x :: walk fuel' step (x + step) stop else []
  end.

Definition iterations (step x stop : Z) : nat :=
  Z.to_nat ((stop - x + step - 1) / step).

Definition while_lt (step x stop : Z) : list Z :=
  walk (iterations step x stop) step x stop.

(** ** Weekend classifier *)

(** [w in [5, 6]] *)
Definition in_5_6 (w : Z) : bool := bool_decide (w = 5) || bool_decide (w = 6).

Definition is_weekend (start end_ : Z) : bool :=
  if in_5_6 (Datetime.weekday start) || in_5_6 (Datetime.weekday end_) then true
  else if bool_decide (end_ - start < Datetime.days 1) then false
  else if bool_decide (end_ - start > Datetime.days 6) then true
  else existsb (fun x => in_5_6 (Datetime.weekday x))
               (while_lt Datetime.day start end_).


(** ** Event rows

    A row of the CSV file, as [csv.DictReader] yields it, is a dictionary of
    strings.  The two time stamps are held here as the datetimes that
    [parse_datestamp] returns for the fields ["Start"] and ["End"]; a row
    whose stamps [strptime] rejects is outside the model. *)

Record Event := {
  Aircraft : string;
  Location : string;
  Start : Z;
  End_ : Z;
  Type_ : string;
  Tach_Total : string
}.

Definition is_event_maintenance (event : Event) : bool :=
  bool_decide (Type_ event = "Maintenance").

Definition is_event_weekend (event : Event) : bool :=
  is_weekend (Start event) (End_ event).

(** Truth value of a string: the empty string is false. *)
Definition truthy (s : string) : bool := negb (bool_decide (s = "")).

(** ** Exceptions *)

Inductive exn : Type :=
| TypeError                (* subscript of [None] *)
| ZeroDivisionError        (* [divmod(_, 0)] *)
| UnevenDistribution.      (* [Exception("Uneven aircraft distribution!")] *)

Inductive result (A : Type) : Type :=
| Ok (a : A)
| Raise (e : exn).
Arguments Ok {A} a.
Arguments Raise {A} e.

(** ** Counters

    Reading a missing key of a [Counter] gives 0 and [c[k] += 1] stores one
    more than what was read. *)

Definition counter_get `{Countable K} (k : K) (c : gmap K Z) : Z :=
  default 0 (c !! k).

Definition counter_incr `{Countable K} (k : K) (c : gmap K Z) : gmap K Z :=
  <[k := counter_get k c + 1]> c.

Definition counter_total `{Countable K} (c : gmap K Z) : Z :=
  map_fold (fun _ v acc => v + acc) 0 c.

(** ** gather_metadata *)

(** The dictionary that is returned.  The source returns the strings
    [first_event["Start"]] and [last_event["End"]] as they are written in
    the rows; [start_date] and [end_date] are the instants they parse to,
    the text of a stamp is not modelled. *)
Record Metadata := {
  start_date : Z;
  end_date : Z;
  length_days : Z;
  num_events : nat
}.

(** One turn of the loop over the events; the state is
    [(first_event, last_event)]. *)
Definition metadata_step (st : option Event * option Event) (event : Event)
  : option Event * option Event :=
  if is_event_maintenance event || negb (truthy (Tach_Total event)) then st
  else
    let first_event :=
      match st.1 with
      | None => event
      | Some first => if bool_decide (Start event < Start first) then event else first
      end in
    let last_event :=
      match st.2 with
      | None => event
      | Some last => if bool_decide (End_ event > End_ last) then event else last
      end in
    (Some first_event, Some last_event).

Definition gather_metadata (event_list : list Event) : result Metadata :=
  match foldl metadata_step (None, None) event_list with
  | (Some first_event, Some last_event) =>
      let t_out := Start first_event in
      let t_in := End_ last_event in
      Ok {| start_date := Start first_event;
            end_date := End_ last_event;
            length_days := (t_in - t_out) / Datetime.day;
            num_events := length event_list |}
  | _ => Raise TypeError
  end.

(** ** length_histogram *)

(** [int(math.ceil(s / (60 * 60)))] for a whole number [s] of seconds.  The
    quotient of the source is a float; for the spans of the calendar it is
    far from the next integer unless it is one, so that its ceiling is the
    ceiling of the exact quotient. *)
Definition ceil_hours (s : Z) : Z := - ((- s) / (60 * 60)).

Definition length_hours (event : Event) : Z :=
  ceil_hours (End_ event - Start event).

Definition histogram_step (results : gmap Z Z) (event : Event) : gmap Z Z :=
  if is_event_maintenance event then results
  else counter_incr (length_hours event) results.

Definition key_le (a b : Z * Z) : Prop := a.1 <= b.1.
Global Instance key_le_dec : RelDecision key_le.
Proof. intros a b. unfold key_le. apply _. Defined.

(** The result is [OrderedDict(sorted(results.items(), key=...))]: the items
    in ascending order of their keys. *)
Definition length_histogram (event_list : list Event) : list (Z * Z) :=
  merge_sort key_le (map_to_list (foldl histogram_step ∅ event_list)).

(** ** days_between_usage *)

(** [abs(delta).total_seconds() / (60 * 60 * 24)], as the exact fraction
    (the source rounds it to a float). *)
Definition delta_days (delta : Z) : Q := Qred (Z.abs delta # 86400).

(** One turn of the loop; the state is
    [(deltas_by_name, last_event_by_name)]. *)
Definition usage_gap_step
    (st : gmap string (list Q) * gmap string Event) (event : Event)
  : gmap string (list Q) * gmap string Event :=
  let aircraft_name := Aircraft event in
  match st.2 !! aircraft_name with
  | None => (st.1, <[aircraft_name := event]> st.2)
  | Some last =>
      if bool_decide (Datetime.date (Start event) = Datetime.date (End_ last))
      then st (* continue *)
      else
        let deltas :=
          if negb (is_event_maintenance event) && negb (is_event_maintenance last)
          then
            let delta_between := Start event - End_ last in
            <[aircraft_name :=
                default [] (st.1 !! aircraft_name) ++ [delta_days delta_between]]>
              st.1
          else st.1 in
        (deltas, <[aircraft_name := event]> st.2)
  end.

Definition usage_gap_loop (event_list : list Event)
  : gmap string (list Q) * gmap string Event :=
  foldl usage_gap_step (∅, ∅) event_list.

Definition days_between_usage (event_list : list Event) : gmap string (list Q) :=
  (usage_gap_loop event_list).1.

(** ** usage_by_weekday *)

(** [day_of_week_by_name[name][x.strftime("%A")] += 1] on a
    [defaultdict(Counter)]. *)
Definition weekday_incr (name : string) (x : Z)
    (day_of_week_by_name : gmap string (gmap string Z))
  : gmap string (gmap string Z) :=
  <[name := counter_incr (Datetime.strftime_A x)
              (default ∅ (day_of_week_by_name !! name))]>
    day_of_week_by_name.

Definition usage_weekday_step
    (day_of_week_by_name : gmap string (gmap string Z)) (event : Event)
  : gmap string (gmap string Z) :=
  if is_event_maintenance event then day_of_week_by_name
  else
    foldl (fun acc x => weekday_incr (Aircraft event) x acc)
          day_of_week_by_name
          (while_lt Datetime.day (Start event) (End_ event)).

Definition usage_by_weekday (event_list : list Event)
  : gmap string (gmap string Z) :=
  foldl usage_weekday_step ∅ event_list.

(** ** aircraft_available_by_airport_and_weekday *)

(** [divmod(a, b)] on integers. *)
Definition divmod (a b : Z) : result (Z * Z) :=
  if bool_decide (b = 0) then Raise ZeroDivisionError else Ok (a / b, a mod b).

(** The storage and the accumulators of the sweep. *)
Record Sweep := {
  available_aircraft_by_airport_and_date : gmap string (gmap Z Z);
  current_date : option Z;
  aircraft_seen : list string;
  airport_usage : gmap string Z
}.

Definition sweep_init : Sweep :=
  {| available_aircraft_by_airport_and_date := ∅;
     current_date := None;
     aircraft_seen := [];
     airport_usage := ∅ |}.

(** [for airport in airports: storage[airport][date] = value(airport)] on a
    [defaultdict(dict)]. *)
Definition record_day (airports : list string) (date : Z) (value : string -> Z)
    (storage : gmap string (gmap Z Z)) : gmap string (gmap Z Z) :=
  foldl (fun acc airport =>
           <[airport := <[date := value airport]> (default ∅ (acc !! airport))]> acc)
        storage airports.

(** The body of [if current_date is not None]: the day that ends is
    recorded, then the gap to the new date is initialised. *)
Definition change_day (aircraft_per_airport : Z) (airports : list string)
    (current new : Z) (usage : gmap string Z)
    (storage : gmap string (gmap Z Z)) : gmap string (gmap Z Z) :=
  let recorded :=
    record_day airports current
      (fun airport => aircraft_per_airport - counter_get airport usage) storage in
  if bool_decide (new - current > 1) then
    foldl (fun acc x => record_day airports x (fun _ => aircraft_per_airport) acc)
          recorded (while_lt 1 current new)
  else recorded.

(** One turn of the loop over the events. *)
Definition sweep_step (aircraft_per_airport : Z) (airports : list string)
    (st : Sweep) (event : Event) : Sweep :=
  let new := Datetime.date (Start event) in
  let st :=
    if bool_decide (Some new ≠ current_date st) then
      {| available_aircraft_by_airport_and_date :=
           match current_date st with
           | Some current =>
               change_day aircraft_per_airport airports current new
                 (airport_usage st) (available_aircraft_by_airport_and_date st)
           | None => available_aircraft_by_airport_and_date st
           end;
         current_date := Some new;
         aircraft_seen := [];
         airport_usage := ∅ |}
    else st in
  if bool_decide (Aircraft event ∈ aircraft_seen st) then st
  else
    {| available_aircraft_by_airport_and_date :=
         available_aircraft_by_airport_and_date st;
       current_date := current_date st;
       aircraft_seen := aircraft_seen st ++ [Aircraft event];
       airport_usage := counter_incr (Location event) (airport_usage st) |}.

Definition sweep (aircraft_per_airport : Z) (airports : list string)
    (event_list : list Event) : Sweep :=
  foldl (sweep_step aircraft_per_airport airports) sweep_init event_list.

(** The availability recorded for an airport and a date, if any. *)
Definition recorded (storage : gmap string (gmap Z Z)) (airport : string)
    (date : Z) : option Z :=
  storage !! airport ≫= (fun date_list => date_list !! date).

(** The counts of an airport, by the name of the weekday of their date.  The
    lists are filled in the order of the map, which may differ from the
    order of insertion of the source; the mean does not depend on it. *)
Definition weekday_counts (date_list : gmap Z Z) : gmap string (list Z) :=
  map_fold (fun date count acc =>
              <[Datetime.date_strftime_A date :=
                  default [] (acc !! Datetime.date_strftime_A date) ++ [count]]> acc)
           ∅ date_list.

(** [statistics.mean(counts)], as the exact fraction. *)
Definition mean (counts : list Z) : Q :=
  Qred (foldr Z.add 0 counts # Pos.of_nat (length counts)).

(** The two loops after the sweep.  Every airport of the storage was written
    from [airports] and has a date, so that the result has the airports of
    the storage. *)
Definition weekday_means (storage : gmap string (gmap Z Z))
  : gmap string (gmap string Q) :=
  (fun date_list => mean <$> weekday_counts date_list) <$> storage.

Definition aircraft_available_by_airport_and_weekday
    (event_list : list Event) (aircraft airports : list string)
  : result (gmap string (gmap string Q)) :=
  match divmod (Z.of_nat (length aircraft)) (Z.of_nat (length airports)) with
  | Raise e => Raise e
  | Ok (aircraft_per_airport, mod_) =>
      if bool_decide (mod_ ≠ 0) then Raise UnevenDistribution
      else
        Ok (weekday_means
              (available_aircraft_by_airport_and_date
                 (sweep aircraft_per_airport airports event_list)))
  end.

(** ** gather_aircraft, gather_locations *)

Definition gather_distinct (field : Event -> string) (events : list Event)
  : list string :=
  foldl (fun acc evt =>
           if bool_decide (field evt ∈ acc) then acc else acc ++ [field evt])
        [] events.

Definition gather_aircraft : list Event -> list string := gather_distinct Aircraft.
Definition gather_locations : list Event -> list string := gather_distinct Location.


(** ** Events by bucket *)

(** The events that [length_histogram] counts in the bucket [hours]. *)
Definition lands_in (hours : Z) (event : Event) : Prop :=
  is_event_maintenance event = false /\ length_hours event = hours.

Global Instance lands_in_dec hours event : Decision (lands_in hours event).
Proof. unfold lands_in. apply _. Defined.

(** ** Qualifying events

    The events that [gather_metadata] looks at: not maintenance, and with a
    usage-hours field that is not blank. *)

Definition qualifying (event : Event) : Prop :=
  is_event_maintenance event = false /\ Tach_Total event <> "".

Global Instance qualifying_dec event : Decision (qualifying event).
Proof. unfold qualifying. apply _. Defined.

(** What the loop holds after the events [l]. *)
Definition metadata_inv (l : list Event) (st : option Event * option Event) : Prop :=
  match st with
  | (None, None) => Forall (fun e => ~ qualifying e) l
  | (Some first, Some last) =>
      (first ∈ l /\ qualifying first) /\ (last ∈ l /\ qualifying last)
      /\ forall e, e ∈ l -> qualifying e ->
                   Start first <= Start e /\ End_ e <= End_ last
  | _ => False
  end.

(** ** Reading the weekday counters

    [day_of_week_by_name[name][dow]], and the sum of the counters of an
    aircraft. *)

Definition weekday_count (day_of_week_by_name : gmap string (gmap string Z))
    (name dow : string) : Z :=
  counter_get dow (default ∅ (day_of_week_by_name !! name)).

Definition weekday_total (day_of_week_by_name : gmap string (gmap string Z))
    (name : string) : Z :=
  counter_total (default ∅ (day_of_week_by_name !! name)).

(** ** Order of the events and state of the sweep *)

(** Events in ascending order of their start. *)
Definition start_le (a b : Event) : Prop := Start a <= Start b.

(** Every date of the storage is before the current date. *)
Definition stored_before (st : Sweep) : Prop :=
  forall airport date v,
    recorded (available_aircraft_by_airport_and_date st) airport date = Some v ->
    exists current, current_date st = Some current /\ date < current.

(** ** Aircraft and airports of a day

    [first_airport name day] is the airport of the first event of the
    aircraft [name] among the events [day]; [used_at airport day] is the
    number of distinct aircraft of [day] whose first event is at [airport];
    [seen_at airport day] is the number of distinct aircraft with an event
    at [airport]. *)

Definition first_airport (name : string) (day : list Event) : option string :=
  Location <$> head (filter (fun e => Aircraft e = name) day).

Definition used_at (airport : string) (day : list Event) : Z :=
  Z.of_nat (length (filter (fun name => first_airport name day = Some airport)
                           (remove_dups (Aircraft <$> day)))).

Definition seen_at (airport : string) (day : list Event) : Z :=
  Z.of_nat (length (remove_dups
                      (Aircraft <$> filter (fun e => Location e = airport) day))).

(** What the sweep holds after the events [day] of the date [date], the
    first of which changed the day. *)
Definition day_inv (date : Z) (day : list Event) (st : Sweep) : Prop :=
  current_date st = Some date
  /\ (forall name, name ∈ aircraft_seen st <-> name ∈ Aircraft <$> day)
  /\ forall airport, counter_get airport (airport_usage st) = used_at airport day.

(** ** weekend_weekday_utilization, airport_utilization *)

(** The dictionary [{"weekend": Counter(), "weekday": Counter()}]. *)
Record Utilization := {
  weekend : gmap string Z;
  weekday : gmap string Z
}.

(** [results[bucket]["total"] += 1; results[bucket][name] += 1] *)
Definition count_event (name : string) (bucket : gmap string Z) : gmap string Z :=
  counter_incr name (counter_incr "total" bucket).

Definition utilization_step (results : Utilization) (event : Event) : Utilization :=
  if is_event_weekend event
  then {| weekend := count_event (Aircraft event) (weekend results);
          weekday := weekday results |}
  else {| weekend := weekend results;
          weekday := count_event (Aircraft event) (weekday results) |}.

Definition weekend_weekday_utilization (event_list : list Event) : Utilization :=
  foldl utilization_step {| weekend := ∅; weekday := ∅ |} event_list.

Definition airport_utilization (event_list : list Event) : gmap string Z :=
  foldl (fun results event => counter_incr (Location event) results) ∅ event_list.

(** ** Counting events *)

(** The number of events of a list with a property. *)
Definition count_events (P : Event -> Prop) `{!forall e, Decision (P e)}
    (event_list : list Event) : Z :=
  Z.of_nat (length (filter P event_list)).

(** A date is a Saturday or a Sunday. *)
Definition weekend_date (d : Z) : Prop :=
  Datetime.date_weekday d = 5 \/ Datetime.date_weekday d = 6.

(** What the loop of [days_between_usage] holds after the events [l]: the
    event stored for an aircraft is one of its events, and an aircraft with
    gaps has a stored event, at least one gap, fewer gaps than events, and
    no negative gap. *)
Definition usage_gap_inv (l : list Event)
    (st : gmap string (list Q) * gmap string Event) : Prop :=
  (forall name e, st.2 !! name = Some e -> e ∈ l /\ Aircraft e = name)
  /\ forall name gaps,
       st.1 !! name = Some gaps ->
       is_Some (st.2 !! name)
       /\ gaps <> []
       /\ Z.of_nat (length gaps) < count_events (fun e => Aircraft e = name) l
       /\ Forall (fun q => (0 <= q)%Q) gaps.

(** ** Sums over events, days of an event *)

Definition sum_events (f : Event -> Z) (event_list : list Event) : Z :=
  foldr (fun e acc => f e + acc) 0 event_list.

(** The number of days an event counts for in [usage_by_weekday]: its length
    in days, rounded up, and none when it does not end after its start. *)
Definition days_counted (event : Event) : Z :=
  Z.max 0 (- ((- (End_ event - Start event)) / Datetime.day)).

(** Items in strictly ascending order of their keys. *)
Definition key_lt (a b : Z * Z) : Prop := a.1 < b.1.

(** ** What the storage of the sweep holds *)

(** Only airports of the list have entries, they have entries for the same
    dates, no entry is above [aircraft_per_airport], and no usage count is
    negative. *)
Definition storage_inv (per : Z) (airports : list string) (st : Sweep) : Prop :=
  (forall airport date v,
      recorded (available_aircraft_by_airport_and_date st) airport date = Some v ->
      airport ∈ airports /\ v <= per
      /\ forall airport', airport' ∈ airports ->
           is_Some (recorded (available_aircraft_by_airport_and_date st)
                             airport' date))
  /\ forall airport, 0 <= counter_get airport (airport_usage st).

(** For events in ascending order: the dates with an entry are those from
    [first] to the day before the current date. *)
Definition dates_inv (airports : list string) (first : Z) (st : Sweep) : Prop :=
  exists current,
    current_date st = Some current /\ first <= current
    /\ forall airport date,
         airport ∈ airports ->
         (is_Some (recorded (available_aircraft_by_airport_and_date st) airport date)
          <-> first <= date < current).

(** ** The availabilities of a weekday *)

(** The counts of the dates of a date list that fall on the weekday of name
    [dow]. *)
Definition counts_on (dow : string) (date_list : gmap Z Z) : list Z :=
  (filter (fun item => Datetime.date_strftime_A item.1 = dow)
          (map_to_list date_list)).*2.

(** The number of days of an event that fall on the weekday of name [dow]:
    the days are those at [Start], [Start] plus one day, and so on, as many
    as the event counts for. *)
Definition days_on (dow : string) (event : Event) : Z :=
  Z.of_nat (length (filter (fun k => Datetime.strftime_A
                                       (Start event + Datetime.days k) = dow)
                           (seqZ 0 (days_counted event)))).
(** The dates from [first] to the day before [final] that fall on the
    weekday of name [dow]. *)
Definition dates_on (dow : string) (first final : Z) : list Z :=
  filter (fun date => Datetime.date_strftime_A date = dow)
         (seqZ first (final - first)).

(** * Properties *)

(** ** The day-by-day loop *)

Section Walk.
Variable step : Z.
Hypothesis step_pos : 0 < step.

Lemma iterations_done x stop : stop <= x -> iterations step x stop = O.
Proof.
  intros Hle. unfold iterations.
  assert ((stop - x + step - 1) / step <= 0); [|lia].
  assert ((stop - x + step - 1) / step < 1); [|lia].
  apply Z.div_lt_upper_bound; lia.
Qed.

Lemma iterations_turn x stop :
  x < stop -> iterations step x stop = S (iterations step (x + step) stop).
Proof.
  intros Hlt. unfold iterations.
  replace (stop - x + step - 1) with ((stop - (x + step) + step - 1) + 1 * step) by lia.
  rewrite Z.div_add by lia.
  rewrite Z2Nat.inj_add; [lia| |lia].
  apply Z.div_pos; lia.
Qed.

Lemma while_lt_done x stop : stop <= x -> while_lt step x stop = [].
Proof. intros Hle. unfold while_lt. by rewrite iterations_done. Qed.

Lemma while_lt_turn x stop :
  x < stop -> while_lt step x stop = x :: while_lt step (x + step) stop.
Proof.
  intros Hlt. unfold while_lt. rewrite iterations_turn by done. simpl.
  by rewrite bool_decide_eq_true_2.
Qed.

(** The loop is left by its test: a larger bound gives the same turns. *)
Lemma walk_fuel fuel x stop :
  (iterations step x stop <= fuel)%nat ->
  walk fuel step x stop = while_lt step x stop.
Proof.
  revert x. induction fuel as [|fuel IH]; intros x Hfuel.
  - unfold while_lt. by replace (iterations step x stop) with O by lia.
  - simpl. case_bool_decide as Hx.
    + rewrite while_lt_turn by done. f_equal. apply IH.
      rewrite iterations_turn in Hfuel by done. lia.
    + by rewrite while_lt_done by lia.
Qed.

Lemma elem_of_while_lt x stop y :
  y ∈ while_lt step x stop <-> exists k, 0 <= k /\ y = x + k * step /\ y < stop.
Proof.
  unfold while_lt. remember (iterations step x stop) as n eqn:Hn.
  revert x Hn. induction n as [|n IH]; intros x Hn.
  - simpl. split; [by intros ?%elem_of_nil|].
    intros (k & Hk & -> & Hlt).
    destruct (decide (x < stop)) as [Hx|Hx].
    + rewrite iterations_turn in Hn by done. lia.
    + nia.
  - destruct (decide (x < stop)) as [Hx|Hx].
    2:{ rewrite iterations_done in Hn by lia. lia. }
    simpl. rewrite bool_decide_eq_true_2 by done.
    rewrite iterations_turn in Hn by done.
    rewrite elem_of_cons, IH by lia. split.
    + intros [->|(k & Hk & -> & Hlt)].
      * exists 0. lia.
      * exists (k + 1). lia.
    + intros (k & Hk & -> & Hlt).
      destruct (decide (k = 0)) as [->|Hk0]; [left; lia|].
      right. exists (k - 1). lia.
Qed.

End Walk.

(** ** is_weekend *)

Ltac days_lia := unfold Datetime.days, Datetime.day in *; lia.

Lemma date_add_days t k : Datetime.date (t + Datetime.days k) = Datetime.date t + k.
Proof. unfold Datetime.date, Datetime.days. by rewrite Z.div_add. Qed.

Lemma date_weekday_range d : 0 <= Datetime.date_weekday d < 7.
Proof. unfold Datetime.date_weekday. apply Z.mod_pos_bound. lia. Qed.

Lemma weekday_add_days t k :
  Datetime.weekday (t + Datetime.days k) = (Datetime.weekday t + k) mod 7.
Proof.
  unfold Datetime.weekday. rewrite date_add_days. unfold Datetime.date_weekday.
  rewrite Zplus_mod_idemp_l. f_equal. lia.
Qed.

(** The turns of the loop over an interval of whole days. *)
Lemma while_lt_from_day t (n : nat) j :
  while_lt Datetime.day (t + Datetime.days j) (t + Datetime.days (j + Z.of_nat n))
  = (fun k => t + Datetime.days k) <$> seqZ j (Z.of_nat n).
Proof.
  revert j. induction n as [|n IH]; intros j.
  - rewrite while_lt_done; [done|done|]. unfold Datetime.days. lia.
  - rewrite while_lt_turn; [|done|unfold Datetime.days, Datetime.day; lia].
    rewrite seqZ_cons by lia. simpl. f_equal.
    replace (Z.pred (Z.of_nat (S n))) with (Z.of_nat n) by lia.
    rewrite <- IH. f_equal; unfold Datetime.days; lia.
Qed.

Lemma while_lt_whole_days t n :
  0 <= n ->
  while_lt Datetime.day t (t + Datetime.days n)
  = (fun k => t + Datetime.days k) <$> seqZ 0 n.
Proof.
  intros Hn. pose proof (while_lt_from_day t (Z.to_nat n) 0) as H.
  rewrite Z2Nat.id in H by done. rewrite <- H.
  f_equal; unfold Datetime.days; lia.
Qed.

Lemma is_weekend_endpoint start end_ :
  in_5_6 (Datetime.weekday start) || in_5_6 (Datetime.weekday end_) = true ->
  is_weekend start end_ = true.
Proof. intros H. unfold is_weekend. by rewrite H. Qed.

(** C7: an interval of at least six days is a weekend interval, and a single
    point in time on a Tuesday is not. *)
Theorem is_weekend_six_days_and_tuesday :
  (forall start end_,
      start <= end_ -> Datetime.days 6 <= end_ - start ->
      is_weekend start end_ = true)
  /\ (forall t, Datetime.weekday t = 1 -> is_weekend t t = false).
Proof.
  split.
  - intros start end_ _ Hspan. unfold is_weekend.
    destruct (in_5_6 (Datetime.weekday start) || in_5_6 (Datetime.weekday end_))
      eqn:Hends; [done|].
    rewrite bool_decide_eq_false_2 by days_lia.
    case_bool_decide as Hlong; [done|].
    assert (end_ = start + Datetime.days 6) as ->
      by days_lia.
    rewrite while_lt_whole_days by lia.
    apply orb_false_elim in Hends as [Hs He].
    rewrite weekday_add_days in He.
    pose proof (date_weekday_range (Datetime.date start)) as Hw.
    change (Datetime.date_weekday (Datetime.date start))
      with (Datetime.weekday start) in Hw.
    apply existsb_exists.
    exists (start + Datetime.days (5 - Datetime.weekday start)). split.
    + apply list_elem_of_In, list_elem_of_fmap.
      exists (5 - Datetime.weekday start). split; [done|].
      apply elem_of_seqZ.
      assert (Datetime.weekday start <> 6) by (intros E; by rewrite E in Hs).
      assert (Datetime.weekday start <> 5) by (intros E; by rewrite E in Hs).
      lia.
    + rewrite weekday_add_days.
      by replace (Datetime.weekday start + (5 - Datetime.weekday start)) with 5 by lia.
  - intros t Ht. unfold is_weekend. rewrite Ht. simpl.
    by rewrite bool_decide_eq_true_2 by days_lia.
Qed.

Lemma is_weekend_six_days_and_tuesday_witness :
  is_weekend (Datetime.make 2024 1 1 10 0 0) (Datetime.make 2024 1 7 10 0 0) = true
  /\ is_weekend (Datetime.make 2024 1 2 10 0 0) (Datetime.make 2024 1 2 10 0 0) = false.
Proof.
  split.
  - apply (proj1 is_weekend_six_days_and_tuesday); vm_compute; discriminate.
  - apply (proj2 is_weekend_six_days_and_tuesday); reflexivity.
Defined.

(** ** Counters *)

Section Counter.
Context `{Countable K}.
Implicit Types (c : gmap K Z) (k : K).

Lemma counter_get_incr k k' c :
  counter_get k' (counter_incr k c)
  = counter_get k' c + (if decide (k = k') then 1 else 0).
Proof.
  unfold counter_incr, counter_get at 1. rewrite lookup_insert.
  case_decide; simpl; [subst|]; unfold counter_get; lia.
Qed.

Lemma lookup_counter_incr k k' c :
  counter_incr k c !! k'
  = if decide (k = k') then Some (counter_get k c + 1) else c !! k'.
Proof. unfold counter_incr. by rewrite lookup_insert. Qed.

Lemma counter_total_insert_fresh k v c :
  c !! k = None -> counter_total (<[k := v]> c) = v + counter_total c.
Proof.
  intros Hk. unfold counter_total. rewrite map_fold_insert_L; [done| |done].
  intros. lia.
Qed.

Lemma counter_total_incr k c :
  counter_total (counter_incr k c) = counter_total c + 1.
Proof.
  unfold counter_incr, counter_get. destruct (c !! k) as [v|] eqn:Hk; simpl.
  - rewrite <- (insert_delete_eq c k (v + 1)).
    rewrite <- (insert_id c k v) at 2 by done.
    rewrite <- (insert_delete_eq c k v).
    rewrite !counter_total_insert_fresh by apply lookup_delete_eq. lia.
  - rewrite counter_total_insert_fresh by done. lia.
Qed.

Lemma counter_total_items c :
  counter_total c = foldr Z.add 0 (map_to_list c).*2.
Proof.
  unfold counter_total. rewrite map_fold_foldr.
  induction (map_to_list c) as [|[k v] l IH]; simpl; [done|]. by rewrite IH.
Qed.

End Counter.

Lemma foldr_add_permutation (l1 l2 : list Z) :
  l1 ≡ₚ l2 -> foldr Z.add 0 l1 = foldr Z.add 0 l2.
Proof. induction 1; simpl; lia. Qed.

(** ** length_histogram *)

Lemma ceil_hours_spec s :
  60 * 60 * (ceil_hours s - 1) < s <= 60 * 60 * ceil_hours s.
Proof.
  unfold ceil_hours.
  pose proof (Z.mul_div_le (- s) (60 * 60) eq_refl).
  pose proof (Z.mul_succ_div_gt (- s) (60 * 60) eq_refl).
  lia.
Qed.

Lemma histogram_total results event_list :
  counter_total (foldl histogram_step results event_list)
  = counter_total results
    + Z.of_nat (length (filter (fun e => is_event_maintenance e = false) event_list)).
Proof.
  revert results. induction event_list as [|e l IH]; intros results; simpl; [lia|].
  rewrite IH, filter_cons. unfold histogram_step.
  destruct (is_event_maintenance e); simpl; [done|].
  rewrite counter_total_incr. lia.
Qed.

Lemma histogram_lookup results event_list hours :
  foldl histogram_step results event_list !! hours
  = let n := Z.of_nat (length (filter (lands_in hours) event_list)) in
    if decide (n = 0) then results !! hours
    else Some (counter_get hours results + n).
Proof.
  revert results. induction event_list as [|e l IH]; intros results; simpl; [done|].
  rewrite IH, filter_cons. clear IH.
  destruct (decide (lands_in hours e)) as [[Hm <-]|Hout].
  - unfold histogram_step. rewrite Hm, lookup_counter_incr, counter_get_incr.
    rewrite !(decide_True (P := length_hours e = length_hours e)) by done.
    simpl length.
    rewrite (decide_False (P := Z.of_nat (S _) = 0)) by lia.
    case_decide as Hn; f_equal; lia.
  - unfold histogram_step. destruct (is_event_maintenance e) eqn:Hm; [done|].
    assert (length_hours e <> hours) as Hne by (intros E; by apply Hout).
    rewrite lookup_counter_incr, counter_get_incr.
    rewrite !(decide_False (P := length_hours e = hours)) by done.
    by rewrite Z.add_0_r.
Qed.

(** C8: the values of the histogram add up to the number of events that are
    not maintenance; the bucket [hours] holds the number of such events whose
    length in hours, rounded up, is [hours]; a reservation of 90 minutes is
    in bucket 2. *)
Theorem length_histogram_counts (event_list : list Event) :
  foldr Z.add 0 (length_histogram event_list).*2
  = Z.of_nat (length (filter (fun e => is_event_maintenance e = false) event_list))
  /\ (forall hours n,
        (hours, n) ∈ length_histogram event_list
        <-> 0 < n /\ n = Z.of_nat (length (filter (lands_in hours) event_list)))
  /\ (forall event,
        60 * 60 * (length_hours event - 1) < End_ event - Start event
        <= 60 * 60 * length_hours event)
  /\ (forall event, End_ event - Start event = 90 * 60 -> length_hours event = 2).
Proof.
  unfold length_histogram. split; [|split; [|split]].
  - rewrite (foldr_add_permutation _ (map_to_list (foldl histogram_step ∅ event_list)).*2).
    2:{ apply fmap_Permutation, merge_sort_Permutation. }
    rewrite <- counter_total_items, histogram_total. done.
  - intros hours n. rewrite merge_sort_Permutation, elem_of_map_to_list.
    rewrite histogram_lookup. simpl. rewrite lookup_empty.
    unfold counter_get. rewrite lookup_empty. simpl.
    case_decide as Hn; split.
    + done.
    + lia.
    + intros [= <-]. lia.
    + intros [_ ->]. done.
  - intros event. apply ceil_hours_spec.
  - intros event Hlen. unfold length_hours. rewrite Hlen. reflexivity.
Qed.

Lemma length_histogram_counts_witness :
  length_hours {| Aircraft := "N123"; Location := "KAAA";
                  Start := Datetime.make 2024 1 5 10 0 0;
                  End_ := Datetime.make 2024 1 5 11 30 0;
                  Type_ := "Reservation"; Tach_Total := "1.2" |} = 2.
Proof.
  apply (proj2 (proj2 (proj2 (length_histogram_counts [])))). reflexivity.
Defined.

(** ** gather_metadata *)

Lemma metadata_step_skip st event :
  ~ qualifying event -> metadata_step st event = st.
Proof.
  intros Hq. unfold metadata_step, truthy.
  destruct (is_event_maintenance event) eqn:Hm; [done|]. simpl.
  case_bool_decide as Ht; [done|]. exfalso. by apply Hq.
Qed.

Lemma metadata_step_take st event :
  qualifying event ->
  metadata_step st event
  = (Some match st.1 with
          | None => event
          | Some first => if bool_decide (Start event < Start first) then event else first
          end,
     Some match st.2 with
          | None => event
          | Some last => if bool_decide (End_ event > End_ last) then event else last
          end).
Proof.
  intros [Hm Ht]. unfold metadata_step, truthy. rewrite Hm. simpl.
  by rewrite bool_decide_eq_false_2.
Qed.

Local Ltac solve_snoc_mem :=
  first [ done
        | apply elem_of_app; left; done
        | apply elem_of_app; right; by apply list_elem_of_singleton ].

Lemma metadata_loop_inv l : metadata_inv l (foldl metadata_step (None, None) l).
Proof.
  induction l as [|x l IH] using rev_ind.
  - simpl. constructor.
  - rewrite foldl_snoc.
    destruct (foldl metadata_step (None, None) l) as [[first|] [last|]];
      simpl in IH; try done.
    + destruct IH as ([Hf Hfq] & [Hl Hlq] & Hall).
      destruct (decide (qualifying x)) as [Hq|Hq].
      * rewrite metadata_step_take by done. simpl.
        repeat case_bool_decide; (split_and!;
          [solve_snoc_mem..|
           intros e [He| ->%list_elem_of_singleton]%elem_of_app Heq;
             [specialize (Hall e He Heq)|]; lia]).
      * rewrite metadata_step_skip by done. simpl.
        split_and!; [solve_snoc_mem..|].
        intros e [He| ->%list_elem_of_singleton]%elem_of_app Heq; [auto|done].
    + destruct (decide (qualifying x)) as [Hq|Hq].
      * rewrite metadata_step_take by done. simpl.
        split_and!; [solve_snoc_mem..|].
        intros e [He| ->%list_elem_of_singleton]%elem_of_app Heq; [|lia].
        rewrite Forall_forall in IH. by destruct (IH e He).
      * rewrite metadata_step_skip by done. simpl.
        apply Forall_app. split; [done|]. by constructor.
Qed.

(** C9: with a qualifying event in the list, [gather_metadata] returns the
    earliest start and the latest end among the qualifying events, and the
    number of all the events; without one it raises. *)
Theorem gather_metadata_bounds (event_list : list Event) :
  (Exists qualifying event_list ->
   exists md,
     gather_metadata event_list = Ok md
     /\ (exists e, e ∈ event_list /\ qualifying e /\ start_date md = Start e)
     /\ (forall e, e ∈ event_list -> qualifying e -> start_date md <= Start e)
     /\ (exists e, e ∈ event_list /\ qualifying e /\ end_date md = End_ e)
     /\ (forall e, e ∈ event_list -> qualifying e -> End_ e <= end_date md)
     /\ length_days md = (end_date md - start_date md) / Datetime.day
     /\ num_events md = length event_list)
  /\ (Forall (fun e => ~ qualifying e) event_list ->
      gather_metadata event_list = Raise TypeError).
Proof.
  pose proof (metadata_loop_inv event_list) as Hinv. unfold gather_metadata.
  destruct (foldl metadata_step (None, None) event_list) as [[first|] [last|]];
    simpl in Hinv; try done.
  - destruct Hinv as ([Hf Hfq] & [Hl Hlq] & Hall). split.
    + intros _. eexists. split; [done|]. simpl. split_and!; try done.
      * by exists first.
      * intros e He Hq. by apply Hall.
      * by exists last.
      * intros e He Hq. by apply Hall.
    + intros Hnone. rewrite Forall_forall in Hnone. by destruct (Hnone first Hf).
  - split; [|done]. intros Hex. apply Exists_exists in Hex as (e & He & Hq).
    rewrite Forall_forall in Hinv. by destruct (Hinv e He).
Qed.

Lemma gather_metadata_bounds_witness :
  exists md,
    gather_metadata
      [ {| Aircraft := "N123"; Location := "KAAA";
           Start := Datetime.make 2024 1 5 10 0 0;
           End_ := Datetime.make 2024 1 5 11 30 0;
           Type_ := "Reservation"; Tach_Total := "1.2" |} ] = Ok md
    /\ num_events md = 1%nat.
Proof.
  destruct (proj1 (gather_metadata_bounds
      [ {| Aircraft := "N123"; Location := "KAAA";
           Start := Datetime.make 2024 1 5 10 0 0;
           End_ := Datetime.make 2024 1 5 11 30 0;
           Type_ := "Reservation"; Tach_Total := "1.2" |} ]))
    as (md & Hmd & _ & _ & _ & _ & _ & Hnum).
  - apply Exists_cons_hd. split; [reflexivity | discriminate].
  - exists md. split; [exact Hmd | exact Hnum].
Defined.

(** ** days_between_usage *)

(** An aircraft not seen before is stored. *)
Lemma usage_gap_step_first st event :
  st.2 !! Aircraft event = None ->
  usage_gap_step st event = (st.1, <[Aircraft event := event]> st.2).
Proof. intros Hnone. unfold usage_gap_step. by rewrite Hnone. Qed.

(** The [continue] of a turn-over on the same day leaves the whole state as
    it was, the stored event included. *)
Lemma usage_gap_step_same_day st event last :
  st.2 !! Aircraft event = Some last ->
  Datetime.date (Start event) = Datetime.date (End_ last) ->
  usage_gap_step st event = st.
Proof.
  intros Hlast Hsame. unfold usage_gap_step.
  by rewrite Hlast, bool_decide_eq_true_2.
Qed.

(** On another day the stored event advances, maintenance or not. *)
Lemma usage_gap_step_other_day st event last :
  st.2 !! Aircraft event = Some last ->
  Datetime.date (Start event) <> Datetime.date (End_ last) ->
  (usage_gap_step st event).2 !! Aircraft event = Some event.
Proof.
  intros Hlast Hother. unfold usage_gap_step.
  rewrite Hlast, bool_decide_eq_false_2 by done. simpl.
  apply lookup_insert_eq.
Qed.

(** C4, on the code: the second of two events of N123 starts on the day the
    first one ends; after it the stored event is still the first one, and
    the gap to a third event is taken from the end of the first. *)
Theorem days_between_usage_same_day_keeps_previous :
  let e1 := {| Aircraft := "N123"; Location := "KAAA";
               Start := Datetime.make 2024 1 1 9 0 0;
               End_ := Datetime.make 2024 1 5 10 0 0;
               Type_ := "Reservation"; Tach_Total := "3.0" |} in
  let e2 := {| Aircraft := "N123"; Location := "KAAA";
               Start := Datetime.make 2024 1 5 14 0 0;
               End_ := Datetime.make 2024 1 8 12 0 0;
               Type_ := "Reservation"; Tach_Total := "2.0" |} in
  let e3 := {| Aircraft := "N123"; Location := "KAAA";
               Start := Datetime.make 2024 1 10 9 0 0;
               End_ := Datetime.make 2024 1 10 12 0 0;
               Type_ := "Reservation"; Tach_Total := "1.0" |} in
  (usage_gap_loop [e1; e2]).2 !! "N123" = Some e1
  /\ days_between_usage [e1; e2] !! "N123" = None
  /\ days_between_usage [e1; e2; e3] !! "N123"
     = Some [delta_days (Start e3 - End_ e1)]
  /\ delta_days (Start e3 - End_ e1) = (119 # 24)%Q
  /\ delta_days (Start e3 - End_ e2) = (15 # 8)%Q.
Proof. vm_compute. repeat split. Qed.

(** ** usage_by_weekday *)

Lemma weekday_count_incr a x st name dow :
  weekday_count (weekday_incr a x st) name dow
  = weekday_count st name dow
    + (if decide (name = a /\ dow = Datetime.strftime_A x) then 1 else 0).
Proof.
  unfold weekday_count, weekday_incr. rewrite lookup_insert.
  destruct (decide (a = name)) as [->|Hne]; simpl.
  - rewrite counter_get_incr.
    destruct (decide (Datetime.strftime_A x = dow)) as [->|Hd].
    + by rewrite decide_True.
    + by rewrite decide_False by (by intros [_ ->]).
  - rewrite decide_False by (by intros [-> _]). lia.
Qed.

Lemma weekday_total_incr a x st name :
  weekday_total (weekday_incr a x st) name
  = weekday_total st name + (if decide (name = a) then 1 else 0).
Proof.
  unfold weekday_total, weekday_incr. rewrite lookup_insert.
  destruct (decide (a = name)) as [->|Hne]; simpl.
  - rewrite counter_total_incr. by rewrite decide_True.
  - rewrite decide_False by done. lia.
Qed.

Lemma weekday_count_walk a xs st name dow :
  weekday_count (foldl (fun acc x => weekday_incr a x acc) st xs) name dow
  = weekday_count st name dow
    + (if decide (name = a)
       then Z.of_nat (length (filter (fun x => Datetime.strftime_A x = dow) xs))
       else 0).
Proof.
  revert st. induction xs as [|x xs IH]; intros st; simpl.
  - case_decide; lia.
  - rewrite IH, weekday_count_incr, filter_cons.
    destruct (decide (name = a)) as [->|Hne].
    + destruct (decide (Datetime.strftime_A x = dow)) as [->|Hd].
      * rewrite decide_True by done. simpl length. lia.
      * rewrite decide_False by (by intros [_ ->]). lia.
    + rewrite decide_False by (by intros [-> _]). lia.
Qed.

Lemma weekday_total_walk a xs st name :
  weekday_total (foldl (fun acc x => weekday_incr a x acc) st xs) name
  = weekday_total st name
    + (if decide (name = a) then Z.of_nat (length xs) else 0).
Proof.
  revert st. induction xs as [|x xs IH]; intros st; simpl.
  - case_decide; lia.
  - rewrite IH, weekday_total_incr. case_decide; lia.
Qed.

(** The increments of one event: one for each turn of its loop. *)
Lemma usage_weekday_step_count st event name dow :
  is_event_maintenance event = false ->
  weekday_count (usage_weekday_step st event) name dow
  = weekday_count st name dow
    + (if decide (name = Aircraft event)
       then Z.of_nat (length (filter (fun x => Datetime.strftime_A x = dow)
                                (while_lt Datetime.day (Start event) (End_ event))))
       else 0).
Proof.
  intros Hm. unfold usage_weekday_step. rewrite Hm. apply weekday_count_walk.
Qed.

Lemma usage_weekday_step_total st event name :
  is_event_maintenance event = false ->
  weekday_total (usage_weekday_step st event) name
  = weekday_total st name
    + (if decide (name = Aircraft event)
       then Z.of_nat (iterations Datetime.day (Start event) (End_ event))
       else 0).
Proof.
  intros Hm. unfold usage_weekday_step. rewrite Hm, weekday_total_walk.
  case_decide; [|done]. do 2 f_equal.
  unfold while_lt. generalize (Start event) as x.
  assert (forall n x, n = iterations Datetime.day x (End_ event) ->
            length (walk n Datetime.day x (End_ event)) = n) as Hlen.
  { induction n as [|n IH]; intros x Hn; [done|]. simpl.
    destruct (decide (x < End_ event)) as [Hx|Hx].
    - rewrite bool_decide_eq_true_2 by done. simpl. f_equal. apply IH.
      rewrite iterations_turn in Hn by done. lia.
    - rewrite iterations_done in Hn by (done || lia). done. }
  intros x. by apply Hlen.
Qed.










(** ** The storage of the sweep *)

Lemma recorded_empty airport date : recorded ∅ airport date = None.
Proof. unfold recorded. by rewrite lookup_empty. Qed.

Lemma recorded_insert storage a d v airport date :
  recorded (<[a := <[d := v]> (default ∅ (storage !! a))]> storage) airport date
  = if decide (a = airport /\ d = date) then Some v else recorded storage airport date.
Proof.
  unfold recorded. rewrite lookup_insert.
  destruct (decide (a = airport)) as [->|Ha]; simpl.
  - rewrite lookup_insert. destruct (decide (d = date)) as [->|Hd].
    + by rewrite decide_True.
    + rewrite decide_False by (by intros [_ ?]).
      by destruct (storage !! airport).
  - by rewrite decide_False by (by intros [? _]).
Qed.

Lemma recorded_record_day airports d value storage airport date :
  recorded (record_day airports d value storage) airport date
  = if decide (airport ∈ airports /\ d = date) then Some (value airport)
    else recorded storage airport date.
Proof.
  unfold record_day. induction airports as [|a airports IH] using rev_ind.
  - by simpl.
  - rewrite foldl_snoc, recorded_insert, IH. clear IH.
    destruct (decide (a = airport /\ d = date)) as [[-> ->]|Hne].
    + rewrite decide_True; [done|]. split; [|done].
      apply elem_of_app. right. by apply list_elem_of_singleton.
    + destruct (decide (airport ∈ airports /\ d = date)) as [[Hin ->]|Hout].
      * rewrite decide_True; [done|]. split; [|done]. apply elem_of_app. by left.
      * rewrite decide_False; [done|]. intros [Hin ->]. 
        apply elem_of_app in Hin as [Hin|Hin%list_elem_of_singleton].
        -- by apply Hout.
        -- by apply Hne.
Qed.

Lemma recorded_fill airports per xs storage airport date :
  recorded (foldl (fun acc x => record_day airports x (fun _ => per) acc) storage xs)
           airport date
  = if decide (airport ∈ airports /\ date ∈ xs) then Some per
    else recorded storage airport date.
Proof.
  induction xs as [|x xs IH] using rev_ind.
  - simpl. first [done | case_decide as Hin; [|done];
                        by destruct Hin as [_ ?%elem_of_nil]].
  - rewrite foldl_snoc, recorded_record_day, IH. clear IH.
    destruct (decide (airport ∈ airports /\ x = date)) as [[Hin ->]|Hne].
    + rewrite decide_True; [done|]. split; [done|].
      apply elem_of_app. right. by apply list_elem_of_singleton.
    + destruct (decide (airport ∈ airports /\ date ∈ xs)) as [[Hin Hd]|Hout].
      * rewrite decide_True; [done|]. split; [done|]. apply elem_of_app. by left.
      * rewrite decide_False; [done|]. intros [Hin Hd].
        apply elem_of_app in Hd as [Hd|Hd%list_elem_of_singleton].
        -- by apply Hout.
        -- by apply Hne.
Qed.

Lemma elem_of_while_lt_dates current new date :
  date ∈ while_lt 1 current new <-> current <= date < new.
Proof.
  rewrite elem_of_while_lt by lia. split.
  - intros (k & Hk & -> & Hlt). lia.
  - intros [Hge Hlt]. exists (date - current). lia.
Qed.

(** What a change of day leaves in the storage. *)
Lemma recorded_change_day per airports current new usage storage airport date :
  recorded (change_day per airports current new usage storage) airport date
  = if decide (airport ∈ airports /\ new - current > 1 /\ current <= date < new)
    then Some per
    else if decide (airport ∈ airports /\ current = date)
         then Some (per - counter_get airport usage)
         else recorded storage airport date.
Proof.
  unfold change_day. case_bool_decide as Hgap.
  - rewrite recorded_fill, recorded_record_day.
    destruct (decide (airport ∈ airports /\ new - current > 1
                      /\ current <= date < new)) as [(Hin & _ & Hd)|Hout].
    + rewrite decide_True; [done|]. split; [done|].
      by apply elem_of_while_lt_dates.
    + rewrite decide_False; [done|]. intros [Hin Hd]. apply Hout.
      apply elem_of_while_lt_dates in Hd. done.
  - rewrite recorded_record_day.
    destruct (decide (airport ∈ airports /\ new - current > 1
                      /\ current <= date < new)) as [(_ & ? & _)|_]; done.
Qed.

(** ** One turn of the sweep *)

Lemma sweep_step_current_date per airports st event :
  current_date (sweep_step per airports st event)
  = Some (Datetime.date (Start event)).
Proof.
  unfold sweep_step.
  destruct (bool_decide (Some (Datetime.date (Start event)) ≠ current_date st))
    eqn:Hnew.
  - by case_bool_decide.
  - apply bool_decide_eq_false, dec_stable in Hnew. by case_bool_decide.
Qed.

Lemma sweep_step_storage per airports st event :
  available_aircraft_by_airport_and_date (sweep_step per airports st event)
  = match current_date st with
    | Some current =>
        if decide (current = Datetime.date (Start event))
        then available_aircraft_by_airport_and_date st
        else change_day per airports current (Datetime.date (Start event))
               (airport_usage st) (available_aircraft_by_airport_and_date st)
    | None => available_aircraft_by_airport_and_date st
    end.
Proof.
  unfold sweep_step.
  destruct (bool_decide (Some (Datetime.date (Start event)) ≠ current_date st))
    eqn:Hnew.
  - apply bool_decide_eq_true in Hnew.
    destruct (current_date st) as [current|] eqn:Hcur.
    + rewrite decide_False by congruence. by case_bool_decide.
    + by case_bool_decide.
  - apply bool_decide_eq_false, dec_stable in Hnew.
    rewrite <- Hnew, decide_True by done. by case_bool_decide.
Qed.

(** An event on the current date leaves the storage and the date alone. *)
Lemma sweep_step_same_date per airports st event :
  current_date st = Some (Datetime.date (Start event)) ->
  available_aircraft_by_airport_and_date (sweep_step per airports st event)
  = available_aircraft_by_airport_and_date st.
Proof. intros Hcur. rewrite sweep_step_storage, Hcur. by rewrite decide_True. Qed.

Lemma sweep_snoc per airports event_list event :
  sweep per airports (event_list ++ [event])
  = sweep_step per airports (sweep per airports event_list) event.
Proof. unfold sweep. apply foldl_snoc. Qed.

(** ** The last day *)

Lemma date_mono s t : s <= t -> Datetime.date s <= Datetime.date t.
Proof. intros Hle. unfold Datetime.date. by apply Z.div_le_mono. Qed.

Lemma stored_before_step per airports st event :
  stored_before st ->
  (forall current, current_date st = Some current ->
                   current <= Datetime.date (Start event)) ->
  stored_before (sweep_step per airports st event).
Proof.
  intros Hinv Hle airport date v.
  rewrite sweep_step_current_date, sweep_step_storage. intros Hrec.
  eexists. split; [done|].
  destruct (current_date st) as [current|] eqn:Hcur.
  - specialize (Hle current eq_refl). case_decide as Hsame.
    + destruct (Hinv _ _ _ Hrec) as (c & Hc & Hlt).
      assert (c = current) by congruence. lia.
    + rewrite recorded_change_day in Hrec. repeat case_decide.
      * lia.
      * lia.
      * destruct (Hinv _ _ _ Hrec) as (c & Hc & Hlt).
        assert (c = current) by congruence. lia.
  - destruct (Hinv _ _ _ Hrec) as (c & Hc & _). congruence.
Qed.

Lemma stored_before_sorted per airports event_list st :
  stored_before st ->
  Sorted start_le event_list ->
  (forall current e, current_date st = Some current -> head event_list = Some e ->
                     current <= Datetime.date (Start e)) ->
  stored_before (foldl (sweep_step per airports) st event_list)
  /\ forall e, last event_list = Some e ->
               current_date (foldl (sweep_step per airports) st event_list)
               = Some (Datetime.date (Start e)).
Proof.
  revert st. induction event_list as [|e l IH]; intros st Hinv Hsorted Hhead.
  - simpl. split; [done|]. intros e [=].
  - apply Sorted_inv in Hsorted as [Hsorted Hrel]. simpl.
    destruct (IH (sweep_step per airports st e)) as [Hinv' Hlast]; [| |..].
    + apply stored_before_step; [done|]. intros current Hcur. by apply Hhead.
    + done.
    + intros current e' Hcur He'. rewrite sweep_step_current_date in Hcur.
      injection Hcur as <-. destruct l as [|e'' l]; [done|].
      injection He' as ->. apply HdRel_inv in Hrel. by apply date_mono.
    + split; [done|]. intros e' He'. destruct l as [|e'' l].
      * injection He' as ->. simpl. apply sweep_step_current_date.
      * apply Hlast. done.
Qed.

Lemma stored_before_init : stored_before sweep_init.
Proof. intros airport date v. simpl. by rewrite recorded_empty. Qed.

(** The events that follow on the current date leave the storage as it is:
    what is seen on the last day is in the accumulators only. *)
Lemma sweep_steps_same_date per airports rest st date :
  current_date st = Some date ->
  Forall (fun e => Datetime.date (Start e) = date) rest ->
  available_aircraft_by_airport_and_date (foldl (sweep_step per airports) st rest)
  = available_aircraft_by_airport_and_date st
  /\ current_date (foldl (sweep_step per airports) st rest) = Some date.
Proof.
  revert st. induction rest as [|e rest IH]; intros st Hcur Hrest; [done|].
  apply Forall_cons in Hrest as [He Hrest]. simpl.
  destruct (IH (sweep_step per airports st e)) as [Hst Hdate]; [|done|].
  - by rewrite sweep_step_current_date, He.
  - split; [|done]. rewrite Hst. apply sweep_step_same_date. by rewrite He.
Qed.

Lemma sweep_rest_of_day per airports event_list event rest :
  Forall (fun e => Datetime.date (Start e) = Datetime.date (Start event)) rest ->
  available_aircraft_by_airport_and_date
    (sweep per airports (event_list ++ event :: rest))
  = available_aircraft_by_airport_and_date
      (sweep per airports (event_list ++ [event])).
Proof.
  intros Hrest.
  replace (event_list ++ event :: rest) with ((event_list ++ [event]) ++ rest)
    by (by rewrite <- app_assoc).
  unfold sweep at 1. rewrite foldl_app. fold (sweep per airports (event_list ++ [event])).
  apply (sweep_steps_same_date _ _ _ _ (Datetime.date (Start event))); [|done].
  rewrite sweep_snoc. apply sweep_step_current_date.
Qed.

(** ** The distribution check *)

Lemma divmod_nonzero a b : b <> 0 -> divmod a b = Ok (a / b, a mod b).
Proof. intros Hb. unfold divmod. by rewrite bool_decide_eq_false_2. Qed.

(** C10: with no airport the call raises at [divmod], whatever the events and
    the aircraft; an empty list of events has no locations and no aircraft. *)
Theorem availability_no_airports_zero_division event_list aircraft :
  aircraft_available_by_airport_and_weekday event_list aircraft []
  = Raise ZeroDivisionError
  /\ aircraft_available_by_airport_and_weekday event_list aircraft []
     <> Raise UnevenDistribution
  /\ gather_locations [] = []
  /\ gather_aircraft [] = []
  /\ aircraft_available_by_airport_and_weekday
       [] (gather_aircraft []) (gather_locations [])
     = Raise ZeroDivisionError.
Proof. by split_and!. Qed.

(** C6, as the code has it: with at least one airport, the call raises the
    distribution error exactly when the number of airports does not divide
    the number of aircraft; when it does, the sweep runs with the quotient. *)
Theorem availability_distribution_check event_list aircraft airports :
  airports <> [] ->
  let n := Z.of_nat (length aircraft) in
  let k := Z.of_nat (length airports) in
  (aircraft_available_by_airport_and_weekday event_list aircraft airports
   = Raise UnevenDistribution
   <-> ~ (k | n))
  /\ ((k | n) ->
      n = n / k * k
      /\ aircraft_available_by_airport_and_weekday event_list aircraft airports
         = Ok (weekday_means
                 (available_aircraft_by_airport_and_date
                    (sweep (n / k) airports event_list)))).
Proof.
  intros Hne n k.
  assert (k <> 0) as Hk by (subst k; destruct airports; simpl; [done|lia]).
  unfold aircraft_available_by_airport_and_weekday. fold n k.
  rewrite divmod_nonzero by done.
  pose proof (Z.mod_divide n k Hk) as Hdiv.
  case_bool_decide as Hmod.
  - split.
    + split; [|done]. intros _ Hd. by apply Hdiv in Hd.
    + intros Hd. by apply Hdiv in Hd.
  - split.
    + split; [done|]. intros Hnd. exfalso. by apply Hnd, Hdiv.
    + intros _. split; [|done].
      pose proof (Z.div_mod n k Hk). lia.
Qed.

Lemma availability_distribution_check_witness :
  aircraft_available_by_airport_and_weekday
    [] ["N1"; "N2"; "N3"; "N4"] ["KAAA"; "KBBB"; "KCCC"]
  = Raise UnevenDistribution.
Proof.
  apply (proj1 (availability_distribution_check
                  [] ["N1"; "N2"; "N3"; "N4"] ["KAAA"; "KBBB"; "KCCC"]
                  ltac:(discriminate))).
  intros [q Hq]. simpl in Hq. lia.
Defined.

(** C6, counterexample: one aircraft and no airport.  Zero does not divide
    one, and the call does not raise the distribution error. *)
Lemma availability_imbalance_without_airports :
  ~ (Z.of_nat (length (@nil string)) | Z.of_nat (length ["N1"]))
  /\ aircraft_available_by_airport_and_weekday [] ["N1"] []
     <> Raise UnevenDistribution
  /\ aircraft_available_by_airport_and_weekday [] ["N1"] []
     = Raise ZeroDivisionError.
Proof.
  split_and!; [|done..]. intros [q Hq]. simpl in Hq. lia.
Qed.

(** ** The gap after a day *)

(** When the next date is more than a day away, the loop that fills the gap
    starts at the day that ends and replaces what was recorded for it. *)
Lemma change_day_gap_overwrites per airports current new usage storage airport :
  airport ∈ airports -> new - current > 1 ->
  recorded (change_day per airports current new usage storage) airport current
  = Some per.
Proof.
  intros Hin Hgap. rewrite recorded_change_day.
  rewrite decide_True; [done|]. repeat split; (done || lia).
Qed.

(** Without a gap, the day that ends keeps what was recorded for it. *)
Lemma change_day_next_day per airports current new usage storage airport :
  airport ∈ airports -> new - current <= 1 ->
  recorded (change_day per airports current new usage storage) airport current
  = Some (per - counter_get airport usage).
Proof.
  intros Hin Hgap. rewrite recorded_change_day.
  rewrite decide_False by (intros (_ & ? & _); lia).
  by rewrite decide_True.
Qed.

(** C2, on the code: one aircraft, one airport, an event on 2024-01-01 and
    the next on 2024-01-03.  The first day has one aircraft in use, and the
    storage holds 1 for it, what the gap gets, in place of 1 - 1. *)
Theorem backfill_overwrites_finalized_day :
  let e1 := {| Aircraft := "N1"; Location := "KAAA";
               Start := Datetime.make 2024 1 1 9 0 0;
               End_ := Datetime.make 2024 1 1 10 0 0;
               Type_ := "Reservation"; Tach_Total := "1.0" |} in
  let e2 := {| Aircraft := "N1"; Location := "KAAA";
               Start := Datetime.make 2024 1 3 9 0 0;
               End_ := Datetime.make 2024 1 3 10 0 0;
               Type_ := "Reservation"; Tach_Total := "1.0" |} in
  let storage :=
    available_aircraft_by_airport_and_date (sweep 1 ["KAAA"] [e1; e2]) in
  counter_get "KAAA" (airport_usage (sweep 1 ["KAAA"] [e1])) = 1
  /\ recorded storage "KAAA" (Datetime.date (Start e1)) = Some 1
  /\ recorded storage "KAAA" (Datetime.date (Start e1) + 1) = Some 1
  /\ recorded storage "KAAA" (Datetime.date (Start e2)) = None.
Proof. vm_compute. repeat split. Qed.

(** ** The aircraft of a day *)

Lemma filter_length_agree {A} (P Q : A -> Prop)
    `{!forall x, Decision (P x)} `{!forall x, Decision (Q x)} (l1 l2 : list A) :
  l1 ≡ₚ l2 -> (forall x, x ∈ l1 -> (P x <-> Q x)) ->
  length (filter P l1) = length (filter Q l2).
Proof.
  intros Hperm Hiff. rewrite <- Hperm. clear l2 Hperm.
  induction l1 as [|x l IH]; [done|].
  rewrite !filter_cons.
  assert (length (filter P l) = length (filter Q l)) as Hl.
  { apply IH. intros y Hy. apply Hiff. by apply list_elem_of_further. }
  pose proof (Hiff x (list_elem_of_here _ _)) as Hx.
  destruct (decide (P x)), (decide (Q x)); simpl; (lia || tauto).
Qed.

Lemma first_airport_snoc_old name day event :
  name ∈ Aircraft <$> day ->
  first_airport name (day ++ [event]) = first_airport name day.
Proof.
  intros Hin. unfold first_airport. rewrite filter_app.
  apply list_elem_of_fmap in Hin as (e & -> & He).
  assert (e ∈ filter (fun e' => Aircraft e' = Aircraft e) day) as Hf
      by (by apply list_elem_of_filter).
  destruct (filter (fun e' => Aircraft e' = Aircraft e) day) as [|e0 l]; [|done].
  by apply elem_of_nil in Hf.
Qed.

Lemma first_airport_snoc_new day event :
  Aircraft event ∉ Aircraft <$> day ->
  first_airport (Aircraft event) (day ++ [event]) = Some (Location event).
Proof.
  intros Hout. unfold first_airport. rewrite filter_app.
  replace (filter (fun e => Aircraft e = Aircraft event) day) with (@nil Event).
  - simpl. rewrite filter_cons, decide_True by done. done.
  - symmetry. destruct (filter _ day) as [|e l] eqn:Hf; [done|].
    exfalso. apply Hout.
    assert (e ∈ filter (fun e => Aircraft e = Aircraft event) day) as He
        by (rewrite Hf; apply list_elem_of_here).
    apply list_elem_of_filter in He as [<- He]. by apply list_elem_of_fmap_2.
Qed.

(** An aircraft that was seen already does not count again; a new one counts
    at the airport of the event. *)
Lemma used_at_snoc airport day event :
  used_at airport (day ++ [event])
  = used_at airport day
    + (if decide (Aircraft event ∈ Aircraft <$> day) then 0
       else if decide (Location event = airport) then 1 else 0).
Proof.
  unfold used_at. rewrite fmap_app. simpl.
  destruct (decide (Aircraft event ∈ Aircraft <$> day)) as [Hin|Hout].
  - rewrite Z.add_0_r. f_equal. apply filter_length_agree.
    + apply NoDup_Permutation; [apply NoDup_remove_dups..|].
      intros x. rewrite !elem_of_remove_dups, elem_of_app, list_elem_of_singleton.
      split; [intros [Hx| ->]; done|by left].
    + intros x Hx. rewrite elem_of_remove_dups in Hx.
      apply elem_of_app in Hx as [Hx| ->%list_elem_of_singleton];
        by rewrite first_airport_snoc_old.
  - transitivity
      (Z.of_nat (length (filter (fun name =>
                                   first_airport name (day ++ [event]) = Some airport)
                                (Aircraft event :: remove_dups (Aircraft <$> day))))).
    + f_equal. apply filter_length_agree; [|done].
      apply NoDup_Permutation.
      * apply NoDup_remove_dups.
      * apply NoDup_cons. split; [|apply NoDup_remove_dups].
        by rewrite elem_of_remove_dups.
      * intros x.
        rewrite elem_of_cons, !elem_of_remove_dups, elem_of_app,
          list_elem_of_singleton.
        tauto.
    + rewrite filter_cons, first_airport_snoc_new by done.
      assert (length (filter (fun name =>
                                first_airport name (day ++ [event]) = Some airport)
                             (remove_dups (Aircraft <$> day)))
              = length (filter (fun name => first_airport name day = Some airport)
                               (remove_dups (Aircraft <$> day)))) as Hl.
      { apply filter_length_agree; [done|]. intros x Hx.
        rewrite elem_of_remove_dups in Hx. by rewrite first_airport_snoc_old. }
      destruct (decide (Location event = airport)) as [->|Hne].
      * rewrite decide_True by done. simpl length. lia.
      * rewrite decide_False by congruence. lia.
Qed.

Lemma used_at_singleton airport event :
  used_at airport [event] = if decide (Location event = airport) then 1 else 0.
Proof.
  change [event] with ([] ++ [event]). rewrite used_at_snoc. simpl.
  by destruct (decide (Location event = airport)).
Qed.

(** ** The accumulators within a day *)

Lemma sweep_step_new_day per airports st event :
  current_date st <> Some (Datetime.date (Start event)) ->
  aircraft_seen (sweep_step per airports st event) = [Aircraft event]
  /\ airport_usage (sweep_step per airports st event)
     = counter_incr (Location event) ∅.
Proof.
  intros Hnew. unfold sweep_step.
  destruct (bool_decide (Some (Datetime.date (Start event)) ≠ current_date st))
    eqn:Hdec.
  - by simpl.
  - apply bool_decide_eq_false, dec_stable in Hdec. by destruct Hnew.
Qed.

Lemma sweep_step_same_day per airports st event :
  current_date st = Some (Datetime.date (Start event)) ->
  aircraft_seen (sweep_step per airports st event)
  = (if decide (Aircraft event ∈ aircraft_seen st) then aircraft_seen st
     else aircraft_seen st ++ [Aircraft event])
  /\ airport_usage (sweep_step per airports st event)
     = (if decide (Aircraft event ∈ aircraft_seen st) then airport_usage st
        else counter_incr (Location event) (airport_usage st)).
Proof.
  intros Hsame. unfold sweep_step.
  destruct (bool_decide (Some (Datetime.date (Start event)) ≠ current_date st))
    eqn:Hdec.
  { apply bool_decide_eq_true in Hdec. by destruct Hdec. }
  destruct (decide (Aircraft event ∈ aircraft_seen st)) as [Hin|Hout].
  - by rewrite bool_decide_eq_true_2.
  - by rewrite bool_decide_eq_false_2.
Qed.

Lemma day_inv_first per airports st event :
  current_date st <> Some (Datetime.date (Start event)) ->
  day_inv (Datetime.date (Start event)) [event] (sweep_step per airports st event).
Proof.
  intros Hnew. destruct (sweep_step_new_day per airports st event Hnew) as [Hs Hu].
  split_and!.
  - apply sweep_step_current_date.
  - intros name. by rewrite Hs.
  - intros airport. rewrite Hu, counter_get_incr, used_at_singleton.
    unfold counter_get. rewrite lookup_empty. simpl.
    destruct (decide (Location event = airport)); done.
Qed.

Lemma day_inv_next per airports st day event date :
  day_inv date day st ->
  Datetime.date (Start event) = date ->
  day_inv date (day ++ [event]) (sweep_step per airports st event).
Proof.
  intros (Hcur & Hseen & Huse) Hdate. subst date.
  destruct (sweep_step_same_day per airports st event Hcur) as [Hs Hu].
  split_and!.
  - apply sweep_step_current_date.
  - intros name. rewrite Hs, fmap_app, elem_of_app. simpl.
    rewrite list_elem_of_singleton, <- Hseen.
    destruct (decide (Aircraft event ∈ aircraft_seen st)) as [Hin|Hout].
    + split; [by left|]. intros [?| ->]; done.
    + by rewrite elem_of_app, list_elem_of_singleton.
  - intros airport. rewrite Hu, used_at_snoc.
    destruct (decide (Aircraft event ∈ aircraft_seen st)) as [Hin|Hout].
    + rewrite decide_True by (by apply Hseen). rewrite Huse. lia.
    + rewrite decide_False by (by rewrite <- Hseen).
      rewrite counter_get_incr, Huse. done.
Qed.

(** After the events of a day, the first of which changed the day, the
    usage of an airport is the number of aircraft first seen there. *)
Lemma day_inv_day per airports st day date :
  current_date st <> Some date ->
  day <> [] ->
  Forall (fun e => Datetime.date (Start e) = date) day ->
  day_inv date day (foldl (sweep_step per airports) st day).
Proof.
  intros Hnew Hne Hday. induction day as [|e day IH] using rev_ind; [done|].
  apply Forall_app in Hday as [Hday He]. rewrite Forall_singleton in He.
  rewrite foldl_snoc. destruct day as [|e0 day].
  - simpl. rewrite <- He. apply day_inv_first. by rewrite He.
  - apply day_inv_next; [|done]. by apply IH.
Qed.

(** Later days leave what was recorded for a day. *)
Lemma recorded_kept_later per airports rest st current airport date :
  current_date st = Some current -> date < current ->
  Forall (fun e => date < Datetime.date (Start e)) rest ->
  recorded (available_aircraft_by_airport_and_date
              (foldl (sweep_step per airports) st rest)) airport date
  = recorded (available_aircraft_by_airport_and_date st) airport date.
Proof.
  revert st current. induction rest as [|e rest IH]; intros st current Hcur Hlt Hrest;
    [done|].
  apply Forall_cons in Hrest as [He Hrest]. simpl.
  rewrite (IH _ (Datetime.date (Start e)));
    [|apply sweep_step_current_date|done|done].
  rewrite sweep_step_storage, Hcur. case_decide; [done|].
  rewrite recorded_change_day.
  rewrite decide_False by (intros (_ & _ & ?); lia).
  by rewrite decide_False by (intros (_ & ?); lia).
Qed.

Lemma sweep_current_date per airports event_list :
  current_date (sweep per airports event_list)
  = (fun e => Datetime.date (Start e)) <$> last event_list.
Proof.
  destruct event_list as [|e l _] using rev_ind; [done|].
  by rewrite sweep_snoc, sweep_step_current_date, last_snoc.
Qed.

(** C1, as the code has it: an aircraft counts once in a day, at the airport
    of its first event of the day.  For the events [day] of one date, that
    follow an event of another date or none, with the next event on the
    following date and the events after it on later dates, the availability
    recorded for an airport and the date is [aircraft_per_airport] less the
    number of aircraft first seen at the airport on the day. *)
Theorem availability_counts_first_airport
    per airports pre day next rest date airport :
  (forall e, last pre = Some e -> Datetime.date (Start e) <> date) ->
  day <> [] ->
  Forall (fun e => Datetime.date (Start e) = date) day ->
  Datetime.date (Start next) = date + 1 ->
  Forall (fun e => date < Datetime.date (Start e)) rest ->
  airport ∈ airports ->
  recorded (available_aircraft_by_airport_and_date
              (sweep per airports (pre ++ day ++ next :: rest)))
           airport date
  = Some (per - used_at airport day).
Proof.
  intros Hpre Hne Hday Hnext Hrest Hin.
  unfold sweep. rewrite !foldl_app. simpl. fold (sweep per airports pre).
  assert (current_date (sweep per airports pre) <> Some date) as Hnew.
  { rewrite sweep_current_date. destruct (last pre) as [e|]; [|done].
    simpl. intros [= E]. by apply (Hpre e). }
  destruct (day_inv_day per airports _ day date Hnew Hne Hday)
    as (Hcur & _ & Huse).
  set (st := foldl (sweep_step per airports) (sweep per airports pre) day) in *.
  rewrite (recorded_kept_later _ _ _ _ (date + 1));
    [|by rewrite sweep_step_current_date, Hnext|lia|done].
  rewrite sweep_step_storage, Hcur, decide_False by lia.
  rewrite change_day_next_day by (done || lia). by rewrite Huse.
Qed.

Lemma availability_counts_first_airport_witness :
  let e1 := {| Aircraft := "N1"; Location := "KAAA";
               Start := Datetime.make 2024 1 1 9 0 0;
               End_ := Datetime.make 2024 1 1 10 0 0;
               Type_ := "Reservation"; Tach_Total := "1.0" |} in
  let e2 := {| Aircraft := "N1"; Location := "KBBB";
               Start := Datetime.make 2024 1 1 14 0 0;
               End_ := Datetime.make 2024 1 1 15 0 0;
               Type_ := "Reservation"; Tach_Total := "1.0" |} in
  let e3 := {| Aircraft := "N2"; Location := "KAAA";
               Start := Datetime.make 2024 1 2 9 0 0;
               End_ := Datetime.make 2024 1 2 10 0 0;
               Type_ := "Reservation"; Tach_Total := "1.0" |} in
  recorded (available_aircraft_by_airport_and_date
              (sweep 1 ["KAAA"; "KBBB"] ([] ++ [e1; e2] ++ e3 :: [])))
           "KBBB" 738886
  = Some (1 - used_at "KBBB" [e1; e2]).
Proof.
  intros e1 e2 e3.
  apply (availability_counts_first_airport 1 ["KAAA"; "KBBB"] [] [e1; e2] e3 []
           738886 "KBBB").
  - intros e [=].
  - discriminate.
  - repeat constructor.
  - reflexivity.
  - constructor.
  - apply list_elem_of_further, list_elem_of_here.
Defined.

(** C1, counterexample: N1 has an event at KAAA and then one at KBBB on
    2024-01-01, and N2 has one the day after.  One aircraft was seen at KBBB
    on the first day, and the availability recorded for KBBB is 1, not
    1 - 1. *)
Lemma availability_second_airport_not_counted :
  let e1 := {| Aircraft := "N1"; Location := "KAAA";
               Start := Datetime.make 2024 1 1 9 0 0;
               End_ := Datetime.make 2024 1 1 10 0 0;
               Type_ := "Reservation"; Tach_Total := "1.0" |} in
  let e2 := {| Aircraft := "N1"; Location := "KBBB";
               Start := Datetime.make 2024 1 1 14 0 0;
               End_ := Datetime.make 2024 1 1 15 0 0;
               Type_ := "Reservation"; Tach_Total := "1.0" |} in
  let e3 := {| Aircraft := "N2"; Location := "KAAA";
               Start := Datetime.make 2024 1 2 9 0 0;
               End_ := Datetime.make 2024 1 2 10 0 0;
               Type_ := "Reservation"; Tach_Total := "1.0" |} in
  let storage :=
    available_aircraft_by_airport_and_date
      (sweep 1 ["KAAA"; "KBBB"] [e1; e2; e3]) in
  divmod 2 2 = Ok (1, 0)
  /\ Datetime.date (Start e1) = Datetime.date (Start e2)
  /\ seen_at "KAAA" [e1; e2] = 1
  /\ seen_at "KBBB" [e1; e2] = 1
  /\ recorded storage "KAAA" (Datetime.date (Start e1)) = Some 0
  /\ recorded storage "KBBB" (Datetime.date (Start e1)) = Some 1
  /\ recorded storage "KBBB" (Datetime.date (Start e1))
     <> Some (1 - seen_at "KBBB" [e1; e2]).
Proof. vm_compute. repeat split. discriminate. Qed.

(** * Further properties *)

(** ** is_weekend, exactly *)

Lemma in_5_6_weekend_date t :
  in_5_6 (Datetime.weekday t) = true <-> weekend_date (Datetime.date t).
Proof.
  unfold in_5_6, weekend_date, Datetime.weekday.
  rewrite orb_true_iff, !bool_decide_eq_true. done.
Qed.

Lemma weekend_date_in_week d :
  exists k, 0 <= k < 7 /\ weekend_date (d + k).
Proof.
  pose proof (date_weekday_range d) as Hw. unfold weekend_date, Datetime.date_weekday in *.
  exists ((5 - (d + 6) mod 7) mod 7). split.
  - apply Z.mod_pos_bound. lia.
  - left. rewrite <- Z.add_assoc, (Z.add_comm _ 6), Z.add_assoc.
    rewrite Zplus_mod_idemp_r.
    rewrite <- Zplus_mod_idemp_l.
    replace ((d + 6) mod 7 + (5 - (d + 6) mod 7)) with 5 by lia. done.
Qed.

(** For [start <= end_], [is_weekend] is true exactly when one of the
    calendar dates from that of [start] to that of [end_] is a Saturday or a
    Sunday. *)
Theorem is_weekend_exact start end_ :
  start <= end_ ->
  (is_weekend start end_ = true
   <-> exists d, Datetime.date start <= d <= Datetime.date end_ /\ weekend_date d).
Proof.
  intros Hle. pose proof (date_mono _ _ Hle) as Hdle.
  unfold is_weekend.
  destruct (in_5_6 (Datetime.weekday start)) eqn:Hs.
  { simpl. split; [intros _|done]. exists (Datetime.date start).
    split; [lia|]. by apply in_5_6_weekend_date. }
  destruct (in_5_6 (Datetime.weekday end_)) eqn:He.
  { simpl. split; [intros _|done]. exists (Datetime.date end_).
    split; [lia|]. by apply in_5_6_weekend_date. }
  simpl.
  assert (~ weekend_date (Datetime.date start)) as Hns
      by (rewrite <- in_5_6_weekend_date; congruence).
  assert (~ weekend_date (Datetime.date end_)) as Hne
      by (rewrite <- in_5_6_weekend_date; congruence).
  case_bool_decide as Hshort.
  { split; [done|]. intros (d & Hd & Hw). exfalso.
    assert (Datetime.date end_ <= Datetime.date start + 1) as Hnear.
    { replace (Datetime.date start + 1) with (Datetime.date (start + Datetime.days 1))
        by apply date_add_days.
      apply date_mono. lia. }
    assert (d = Datetime.date start \/ d = Datetime.date end_) as [-> | ->] by lia;
      done. }
  case_bool_decide as Hlong.
  { split; [intros _|done].
    destruct (weekend_date_in_week (Datetime.date start)) as (k & Hk & Hw).
    exists (Datetime.date start + k). split; [|done].
    assert (Datetime.date start + 6 <= Datetime.date end_); [|lia].
    rewrite <- date_add_days. apply date_mono. lia. }
  rewrite existsb_exists. split.
  - intros (x & Hx & Hw). apply list_elem_of_In in Hx.
    apply elem_of_while_lt in Hx as (k & Hk & -> & Hlt); [|done].
    apply in_5_6_weekend_date in Hw.
    change (k * Datetime.day) with (Datetime.days k) in *.
    exists (Datetime.date (start + Datetime.days k)). split; [|done].
    split.
    + rewrite date_add_days. lia.
    + apply date_mono. lia.
  - intros (d & Hd & Hw).
    assert (d <> Datetime.date start) by (by intros ->).
    assert (d <> Datetime.date end_) by (by intros ->).
    exists (start + Datetime.days (d - Datetime.date start)).
    assert (Datetime.date (start + Datetime.days (d - Datetime.date start)) = d)
      as Hdate by (rewrite date_add_days; lia).
    split.
    + apply list_elem_of_In, elem_of_while_lt; [done|].
      exists (d - Datetime.date start). split; [lia|]. split; [done|].
      destruct (decide (start + Datetime.days (d - Datetime.date start) < end_))
        as [|Hge]; [done|].
      apply Z.nlt_ge, date_mono in Hge. rewrite Hdate in Hge. lia.
    + apply in_5_6_weekend_date. by rewrite Hdate.
Qed.

Lemma is_weekend_exact_witness :
  is_weekend (Datetime.make 2024 1 4 22 0 0) (Datetime.make 2024 1 8 3 0 0) = true.
Proof.
  apply (proj2 (is_weekend_exact (Datetime.make 2024 1 4 22 0 0)
                  (Datetime.make 2024 1 8 3 0 0)
                  ltac:(vm_compute; discriminate))).
  exists 738891.
  replace (Datetime.date (Datetime.make 2024 1 4 22 0 0)) with 738889
    by (vm_compute; reflexivity).
  replace (Datetime.date (Datetime.make 2024 1 8 3 0 0)) with 738893
    by (vm_compute; reflexivity).
  split; [lia|]. left. reflexivity.
Defined.

(** ** weekend_weekday_utilization *)

Lemma count_event_get name bucket key :
  counter_get key (count_event name bucket)
  = counter_get key bucket
    + (if decide (key = "total") then 1 else 0)
    + (if decide (key = name) then 1 else 0).
Proof.
  unfold count_event. rewrite !counter_get_incr.
  destruct (decide (name = key)), (decide (key = name)); try congruence;
    destruct (decide ("total" = key)), (decide (key = "total")); try congruence;
    lia.
Qed.

Lemma utilization_fold_get results event_list key :
  let r := foldl utilization_step results event_list in
  counter_get key (weekend r)
  = counter_get key (weekend results)
    + (if decide (key = "total")
       then count_events (fun e => is_event_weekend e = true) event_list else 0)
    + count_events (fun e => is_event_weekend e = true /\ Aircraft e = key) event_list
  /\ counter_get key (weekday r)
     = counter_get key (weekday results)
       + (if decide (key = "total")
          then count_events (fun e => is_event_weekend e = false) event_list else 0)
       + count_events (fun e => is_event_weekend e = false /\ Aircraft e = key)
                      event_list.
Proof.
  revert results. unfold count_events.
  induction event_list as [|e l IH]; intros results; simpl.
  - split; case_decide; lia.
  - destruct (IH (utilization_step results e)) as [IHe IHd]. rewrite IHe, IHd.
    clear IH IHe IHd. rewrite !filter_cons. unfold utilization_step.
    destruct (is_event_weekend e) eqn:Hw; simpl; rewrite count_event_get;
      destruct (decide (key = "total")), (decide (key = Aircraft e));
      repeat (case_decide; simpl length); try lia; exfalso;
      repeat match goal with H : _ /\ _ |- _ => destruct H end;
      repeat match goal with
             | H : ~ (_ /\ _) |- _ => apply H; split; congruence
             end; congruence.
Qed.

Lemma utilization_get event_list key :
  counter_get key (weekend (weekend_weekday_utilization event_list))
  = (if decide (key = "total")
     then count_events (fun e => is_event_weekend e = true) event_list else 0)
    + count_events (fun e => is_event_weekend e = true /\ Aircraft e = key) event_list
  /\ counter_get key (weekday (weekend_weekday_utilization event_list))
     = (if decide (key = "total")
        then count_events (fun e => is_event_weekend e = false) event_list else 0)
       + count_events (fun e => is_event_weekend e = false /\ Aircraft e = key)
                      event_list.
Proof.
  destruct (utilization_fold_get {| weekend := ∅; weekday := ∅ |} event_list key)
    as [He Hd].
  unfold weekend_weekday_utilization. rewrite He, Hd. simpl.
  unfold counter_get. rewrite !lookup_empty. simpl. lia.
Qed.

(** Each event counts once under ["total"] and once under its aircraft, in
    the bucket of its kind: a key holds the number of events of the kind of
    the aircraft of that name, and ["total"] holds on top of it the number of
    all events of the kind. *)
Theorem weekend_weekday_utilization_counts event_list key :
  counter_get key (weekend (weekend_weekday_utilization event_list))
  = (if decide (key = "total")
     then count_events (fun e => is_event_weekend e = true) event_list else 0)
    + count_events (fun e => is_event_weekend e = true /\ Aircraft e = key) event_list
  /\ counter_get key (weekday (weekend_weekday_utilization event_list))
     = (if decide (key = "total")
        then count_events (fun e => is_event_weekend e = false) event_list else 0)
       + count_events (fun e => is_event_weekend e = false /\ Aircraft e = key)
                      event_list.
Proof.
  destruct (utilization_fold_get {| weekend := ∅; weekday := ∅ |} event_list key)
    as [He Hd].
  unfold weekend_weekday_utilization. rewrite He, Hd. simpl.
  unfold counter_get. rewrite !lookup_empty. simpl. lia.
Qed.

Lemma count_events_split (P : Event -> Prop) `{!forall e, Decision (P e)}
    (b : Event -> bool) event_list :
  count_events (fun e => b e = true /\ P e) event_list
  + count_events (fun e => b e = false /\ P e) event_list
  = count_events P event_list.
Proof.
  unfold count_events. induction event_list as [|e l IH]; [done|].
  rewrite !filter_cons.
  destruct (b e) eqn:Hb;
    repeat (case_decide; simpl length); try lia; exfalso;
    repeat match goal with H : _ /\ _ |- _ => destruct H end;
    repeat match goal with
           | H : ~ (_ /\ _) |- _ => apply H; split; congruence
           end; congruence.
Qed.

Lemma count_events_bool (b : Event -> bool) event_list :
  count_events (fun e => b e = true) event_list
  + count_events (fun e => b e = false) event_list
  = Z.of_nat (length event_list).
Proof.
  unfold count_events. induction event_list as [|e l IH]; [done|].
  rewrite !filter_cons. destruct (b e) eqn:Hb; simpl; lia.
Qed.

(** When no aircraft is named ["total"], the two totals add up to the number
    of events, and the two counts of an aircraft to the number of its
    events. *)
Theorem weekend_weekday_utilization_partition event_list :
  Forall (fun e => Aircraft e <> "total") event_list ->
  let r := weekend_weekday_utilization event_list in
  counter_get "total" (weekend r) + counter_get "total" (weekday r)
  = Z.of_nat (length event_list)
  /\ forall name, name <> "total" ->
       counter_get name (weekend r) + counter_get name (weekday r)
       = count_events (fun e => Aircraft e = name) event_list.
Proof.
  intros Hnames r. subst r. split.
  - destruct (utilization_get event_list "total") as [-> ->].
    rewrite !decide_True by done.
    assert (forall b, count_events (fun e => is_event_weekend e = b
                                             /\ Aircraft e = "total") event_list = 0)
      as Hnone.
    { intros b. unfold count_events.
      replace (filter _ event_list) with (@nil Event); [done|].
      symmetry. induction Hnames as [|e l He _ IH]; [done|].
      rewrite filter_cons, decide_False by (by intros [_ ?]). done. }
    rewrite !Hnone. pose proof (count_events_bool is_event_weekend event_list). lia.
  - intros name Hname.
    destruct (utilization_get event_list name) as [-> ->].
    rewrite !decide_False by done.
    pose proof (count_events_split (fun e => Aircraft e = name) is_event_weekend
                  event_list) as Hsplit.
    cbv beta in Hsplit. lia.
Qed.

Lemma weekend_weekday_utilization_partition_witness :
  let e := {| Aircraft := "N123"; Location := "KAAA";
              Start := Datetime.make 2024 1 5 10 0 0;
              End_ := Datetime.make 2024 1 5 11 30 0;
              Type_ := "Reservation"; Tach_Total := "1.2" |} in
  let r := weekend_weekday_utilization [e] in
  counter_get "total" (weekend r) + counter_get "total" (weekday r) = 1.
Proof.
  intros e.
  exact (proj1 (weekend_weekday_utilization_partition [e]
                  ltac:(repeat constructor; discriminate))).
Defined.

(** An aircraft named ["total"] shares its key with the totals: one weekday
    event of such an aircraft leaves 2 under ["total"]. *)
Lemma weekend_weekday_utilization_total_collision :
  let e := {| Aircraft := "total"; Location := "KAAA";
              Start := Datetime.make 2024 1 2 10 0 0;
              End_ := Datetime.make 2024 1 2 11 0 0;
              Type_ := "Reservation"; Tach_Total := "1.0" |} in
  counter_get "total" (weekday (weekend_weekday_utilization [e])) = 2.
Proof. vm_compute. reflexivity. Qed.

(** ** airport_utilization *)

Lemma airport_fold_get results event_list airport :
  counter_get airport
    (foldl (fun results event => counter_incr (Location event) results)
           results event_list)
  = counter_get airport results
    + count_events (fun e => Location e = airport) event_list.
Proof.
  revert results. unfold count_events.
  induction event_list as [|e l IH]; intros results; simpl; [lia|].
  rewrite IH, counter_get_incr, filter_cons.
  destruct (decide (Location e = airport)); simpl length; lia.
Qed.

Lemma airport_fold_total results event_list :
  counter_total
    (foldl (fun results event => counter_incr (Location event) results)
           results event_list)
  = counter_total results + Z.of_nat (length event_list).
Proof.
  revert results. induction event_list as [|e l IH]; intros results; simpl; [lia|].
  rewrite IH, counter_total_incr. lia.
Qed.

Lemma airport_fold_key results event_list airport :
  is_Some (foldl (fun results event => counter_incr (Location event) results)
                 results event_list !! airport)
  <-> is_Some (results !! airport) \/ airport ∈ Location <$> event_list.
Proof.
  revert results. induction event_list as [|e l IH]; intros results; simpl.
  - split; [by left|]. intros [?|?%elem_of_nil]; done.
  - rewrite IH, lookup_counter_incr, elem_of_cons.
    destruct (decide (Location e = airport)) as [->|Hne].
    + split; [intros _; right; by left|]. intros _. left. by eexists.
    + split.
      * intros [?|?]; [by left|by right; right].
      * intros [?|[?|?]]; [by left|congruence|by right].
Qed.

(** The count of an airport is the number of events there, no airport
    without an event has a key, and the counts add up to the number of
    events. *)
Theorem airport_utilization_counts event_list :
  (forall airport,
      counter_get airport (airport_utilization event_list)
      = count_events (fun e => Location e = airport) event_list)
  /\ (forall airport,
        is_Some (airport_utilization event_list !! airport)
        <-> airport ∈ Location <$> event_list)
  /\ counter_total (airport_utilization event_list) = Z.of_nat (length event_list).
Proof.
  unfold airport_utilization. split_and!.
  - intros airport. rewrite airport_fold_get. unfold counter_get.
    by rewrite lookup_empty.
  - intros airport. rewrite airport_fold_key, lookup_empty. split.
    + intros [[? [=]]|?]; done.
    + by right.
  - rewrite airport_fold_total. done.
Qed.

(** ** gather_aircraft, gather_locations *)

Lemma gather_distinct_snoc field events evt :
  gather_distinct field (events ++ [evt])
  = if decide (field evt ∈ gather_distinct field events)
    then gather_distinct field events
    else gather_distinct field events ++ [field evt].
Proof.
  unfold gather_distinct. rewrite foldl_snoc.
  destruct (decide (field evt ∈ _)) as [Hin|Hout].
  - by rewrite bool_decide_eq_true_2.
  - by rewrite bool_decide_eq_false_2.
Qed.

Lemma gather_distinct_remove_dups field events :
  gather_distinct field events = reverse (remove_dups (reverse (field <$> events))).
Proof.
  induction events as [|evt events IH] using rev_ind; [done|].
  rewrite gather_distinct_snoc, fmap_app, reverse_app. simpl.
  assert (field evt ∈ gather_distinct field events
          <-> field evt ∈ reverse (field <$> events)) as Hmem.
  { rewrite IH, elem_of_reverse, elem_of_remove_dups. done. }
  destruct (decide (field evt ∈ gather_distinct field events)) as [Hin|Hout];
    destruct (decide_rel elem_of (field evt) (reverse (field <$> events)))
      as [Hin'|Hout']; try tauto.
  by rewrite reverse_cons, <- IH.
Qed.

(** The gathered list has no duplicate, has the fields of the events and no
    other, and keeps the order of first appearance: what is gathered from a
    prefix of the events is a prefix of what is gathered from all. *)
Theorem gather_distinct_first_seen field events :
  NoDup (gather_distinct field events)
  /\ (forall x, x ∈ gather_distinct field events <-> x ∈ field <$> events)
  /\ (forall l1 l2, events = l1 ++ l2 ->
        gather_distinct field l1 `prefix_of` gather_distinct field events).
Proof.
  split_and!.
  - rewrite gather_distinct_remove_dups, reverse_Permutation.
    apply NoDup_remove_dups.
  - intros x.
    by rewrite gather_distinct_remove_dups, elem_of_reverse, elem_of_remove_dups,
      elem_of_reverse.
  - intros l1 l2 ->. induction l2 as [|evt l2 IH] using rev_ind.
    + by rewrite app_nil_r.
    + rewrite app_assoc, gather_distinct_snoc. case_decide; [done|].
      by apply prefix_app_r.
Qed.

Lemma gather_distinct_nil_iff field events :
  gather_distinct field events = [] <-> events = [].
Proof.
  split; [|by intros ->]. intros Hnil. destruct events as [|evt events]; [done|].
  assert (field evt ∈ gather_distinct field (evt :: events)) as Hin.
  { rewrite gather_distinct_remove_dups, elem_of_reverse, elem_of_remove_dups,
      elem_of_reverse. simpl. apply list_elem_of_here. }
  rewrite Hnil in Hin. by apply elem_of_nil in Hin.
Qed.

(** With the aircraft and the locations gathered from the events, as the
    script calls it, the availability raises [ZeroDivisionError] exactly
    when there is no event. *)
Theorem availability_of_gathered_zero_division events :
  aircraft_available_by_airport_and_weekday
    events (gather_aircraft events) (gather_locations events)
  = Raise ZeroDivisionError
  <-> events = [].
Proof.
  split; [|by intros ->]. intros Hraise.
  destruct (decide (events = [])) as [|Hne]; [done|]. exfalso.
  assert (gather_locations events <> []) as Hloc
      by (unfold gather_locations; by rewrite gather_distinct_nil_iff).
  unfold aircraft_available_by_airport_and_weekday in Hraise.
  rewrite divmod_nonzero in Hraise.
  - by case_bool_decide.
  - destruct (gather_locations events); [done|]. simpl. lia.
Qed.

(** ** days_between_usage, in general *)

Lemma delta_days_nonneg delta : (0 <= delta_days delta)%Q.
Proof.
  unfold delta_days. rewrite Qred_correct. unfold Qle. simpl. lia.
Qed.

Lemma count_events_snoc (P : Event -> Prop) `{!forall e, Decision (P e)} l e :
  count_events P (l ++ [e])
  = count_events P l + (if decide (P e) then 1 else 0).
Proof.
  unfold count_events. rewrite filter_app, length_app, filter_cons, filter_nil.
  case_decide; simpl; lia.
Qed.

Lemma count_events_pos (P : Event -> Prop) `{!forall e, Decision (P e)} l e :
  e ∈ l -> P e -> 0 < count_events P l.
Proof.
  intros He HP. unfold count_events.
  assert (e ∈ filter P l) as Hin by (by apply list_elem_of_filter).
  destruct (filter P l); [by apply elem_of_nil in Hin|simpl; lia].
Qed.

Lemma usage_gap_loop_inv l : usage_gap_inv l (usage_gap_loop l).
Proof.
  unfold usage_gap_loop. induction l as [|x l IH] using rev_ind.
  - split; simpl; intros ? ?; by rewrite lookup_empty.
  - rewrite foldl_snoc. destruct IH as [Hlast Hgaps].
    set (st := foldl usage_gap_step (∅, ∅) l) in *.
    assert (forall name gaps,
               st.1 !! name = Some gaps ->
               is_Some (st.2 !! name) /\ gaps <> []
               /\ Z.of_nat (length gaps)
                  < count_events (fun e => Aircraft e = name) (l ++ [x])
               /\ Forall (fun q => (0 <= q)%Q) gaps) as Hgaps'.
    { intros name gaps Hg. destruct (Hgaps name gaps Hg) as (? & ? & ? & ?).
      split_and!; try done. rewrite count_events_snoc. case_decide; lia. }
    assert (forall name e, st.2 !! name = Some e ->
                           e ∈ l ++ [x] /\ Aircraft e = name) as Hlast'.
    { intros name e He. destruct (Hlast name e He). split; [|done].
      apply elem_of_app. by left. }
    assert (x ∈ l ++ [x]) as Hx
        by (apply elem_of_app; right; by apply list_elem_of_singleton).
    unfold usage_gap_step.
    destruct (st.2 !! Aircraft x) as [last|] eqn:Hprev.
    2:{ split; simpl.
        - intros name e. rewrite lookup_insert. case_decide; [|by apply Hlast'].
          intros [= <-]. by subst.
        - intros name gaps Hg. destruct (Hgaps' name gaps Hg) as (? & ? & ? & ?).
          split_and!; try done. rewrite lookup_insert. case_decide; [by eexists|done]. }
    case_bool_decide as Hsame; [by split|].
    split; simpl.
    + intros name e. rewrite lookup_insert. case_decide; [|by apply Hlast'].
      intros [= <-]. by subst.
    + intros name gaps.
      destruct (negb (is_event_maintenance x) && negb (is_event_maintenance last)).
      * rewrite lookup_insert. destruct (decide (Aircraft x = name)) as [<-|Hne].
        -- intros [= <-]. rewrite lookup_insert, decide_True by done.
           split_and!; [by eexists|by destruct (default [] _)| |].
           ++ rewrite length_app, count_events_snoc, decide_True by done. simpl.
              destruct (st.1 !! Aircraft x) as [g|] eqn:Hg; simpl.
              ** destruct (Hgaps _ _ Hg) as (_ & _ & Hlen & _). lia.
              ** destruct (Hlast _ _ Hprev) as [Hin Hname].
                 pose proof (count_events_pos (fun e => Aircraft e = Aircraft x)
                               l last Hin Hname). lia.
           ++ apply Forall_app. split; [|repeat constructor; apply delta_days_nonneg].
              destruct (st.1 !! Aircraft x) as [g|] eqn:Hg; simpl; [|constructor].
              by destruct (Hgaps _ _ Hg) as (_ & _ & _ & ?).
        -- intros Hg. destruct (Hgaps' name gaps Hg) as (? & ? & ? & ?).
           split_and!; try done. by rewrite lookup_insert_ne.
      * intros Hg. destruct (Hgaps' name gaps Hg) as (? & ? & ? & ?).
        split_and!; try done. rewrite lookup_insert. case_decide; [by eexists|done].
Qed.

(** An aircraft with an entry in the result has at least one gap there,
    fewer gaps than events in the list, and no negative gap. *)
Theorem days_between_usage_gaps event_list name gaps :
  days_between_usage event_list !! name = Some gaps ->
  gaps <> []
  /\ Z.of_nat (length gaps) < count_events (fun e => Aircraft e = name) event_list
  /\ Forall (fun q => (0 <= q)%Q) gaps.
Proof.
  intros Hg. destruct (usage_gap_loop_inv event_list) as [_ Hgaps].
  by destruct (Hgaps name gaps Hg) as (_ & ? & ? & ?).
Qed.

Lemma days_between_usage_gaps_witness :
  let e1 := {| Aircraft := "N123"; Location := "KAAA";
               Start := Datetime.make 2024 1 5 8 0 0;
               End_ := Datetime.make 2024 1 5 10 0 0;
               Type_ := "Reservation"; Tach_Total := "1.5" |} in
  let e2 := {| Aircraft := "N123"; Location := "KAAA";
               Start := Datetime.make 2024 1 7 9 0 0;
               End_ := Datetime.make 2024 1 7 10 0 0;
               Type_ := "Reservation"; Tach_Total := "0.8" |} in
  Forall (fun q => (0 <= q)%Q) [(47 # 24)%Q].
Proof.
  intros e1 e2.
  exact (proj2 (proj2 (days_between_usage_gaps [e1; e2] "N123" [(47 # 24)%Q]
                         ltac:(vm_compute; reflexivity)))).
Defined.

(** Two events of one aircraft: no gap when the second starts on the date the
    first ends or when one of them is maintenance; otherwise the one gap
    from the end of the first to the start of the second, in days. *)
Theorem days_between_usage_pair e1 e2 :
  Aircraft e1 = Aircraft e2 ->
  days_between_usage [e1; e2]
  = if decide (Datetime.date (Start e2) = Datetime.date (End_ e1)
               \/ is_event_maintenance e1 = true
               \/ is_event_maintenance e2 = true)
    then ∅
    else {[ Aircraft e2 := [delta_days (Start e2 - End_ e1)] ]}.
Proof.
  intros Hname. unfold days_between_usage, usage_gap_loop.
  change (foldl usage_gap_step (∅, ∅) [e1; e2])
    with (usage_gap_step (usage_gap_step (∅, ∅) e1) e2).
  rewrite (usage_gap_step_first (∅, ∅) e1) by apply lookup_empty.
  unfold usage_gap_step. cbn [fst snd]. rewrite Hname, lookup_insert_eq.
  case_bool_decide as Hsame.
  { rewrite decide_True by (by left). done. }
  destruct (is_event_maintenance e1) eqn:H1, (is_event_maintenance e2) eqn:H2; simpl.
  - rewrite decide_True by (right; by left). done.
  - rewrite decide_True by (right; by left). done.
  - rewrite decide_True by (right; by right). done.
  - rewrite decide_False by (intros [?|[?|?]]; done).
    rewrite lookup_empty. simpl. by rewrite insert_empty.
Qed.

Lemma days_between_usage_pair_witness :
  let e1 := {| Aircraft := "N123"; Location := "KAAA";
               Start := Datetime.make 2024 1 5 8 0 0;
               End_ := Datetime.make 2024 1 5 10 0 0;
               Type_ := "Reservation"; Tach_Total := "1.5" |} in
  let e2 := {| Aircraft := "N123"; Location := "KAAA";
               Start := Datetime.make 2024 1 5 14 0 0;
               End_ := Datetime.make 2024 1 5 15 0 0;
               Type_ := "Reservation"; Tach_Total := "0.8" |} in
  days_between_usage [e1; e2] = ∅.
Proof.
  intros e1 e2.
  rewrite (days_between_usage_pair e1 e2 eq_refl).
  rewrite decide_True; [done|]. left. vm_compute. reflexivity.
Defined.

(** ** usage_by_weekday, in general *)

Lemma iterations_days_counted event :
  Z.of_nat (iterations Datetime.day (Start event) (End_ event)) = days_counted event.
Proof.
  unfold iterations, days_counted.
  set (s := End_ event - Start event).
  replace (End_ event - Start event + Datetime.day - 1) with (s + Datetime.day - 1)
    by (subst s; lia).
  assert ((s + Datetime.day - 1) / Datetime.day = - (- s / Datetime.day)) as ->.
  { pose proof (Z.div_mod (s + Datetime.day - 1) Datetime.day ltac:(done)) as H1.
    pose proof (Z.mod_pos_bound (s + Datetime.day - 1) Datetime.day ltac:(done)) as H2.
    pose proof (Z.div_mod (- s) Datetime.day ltac:(done)) as H3.
    pose proof (Z.mod_pos_bound (- s) Datetime.day ltac:(done)) as H4.
    unfold Datetime.day in *. nia. }
  lia.
Qed.

Lemma usage_by_weekday_fold_total st event_list name :
  weekday_total (foldl usage_weekday_step st event_list) name
  = weekday_total st name
    + sum_events (fun e => if decide (is_event_maintenance e = false
                                      /\ Aircraft e = name)
                           then days_counted e else 0) event_list.
Proof.
  revert st. induction event_list as [|e l IH]; intros st; simpl; [lia|].
  rewrite IH. clear IH. destruct (is_event_maintenance e) eqn:Hm.
  - unfold usage_weekday_step. rewrite Hm.
    rewrite decide_False by (by intros [? _]). lia.
  - rewrite usage_weekday_step_total by done.
    destruct (decide (name = Aircraft e)) as [->|Hne].
    + rewrite decide_True by done. rewrite iterations_days_counted. lia.
    + rewrite decide_False by (intros [_ ?]; congruence). lia.
Qed.

Lemma usage_by_weekday_fold_filter st event_list :
  foldl usage_weekday_step st event_list
  = foldl usage_weekday_step st
      (filter (fun e => is_event_maintenance e = false) event_list).
Proof.
  revert st. induction event_list as [|e l IH]; intros st; [done|].
  rewrite filter_cons. simpl. destruct (is_event_maintenance e) eqn:Hm; simpl.
  - rewrite IH. unfold usage_weekday_step at 2. by rewrite Hm.
  - by rewrite IH.
Qed.

(** Maintenance events leave no trace in [usage_by_weekday], and the
    counters of an aircraft add up to the days counted for its other events:
    for each the length in days, rounded up. *)
Theorem usage_by_weekday_totals event_list :
  usage_by_weekday event_list
  = usage_by_weekday (filter (fun e => is_event_maintenance e = false) event_list)
  /\ (forall name,
        weekday_total (usage_by_weekday event_list) name
        = sum_events (fun e => if decide (is_event_maintenance e = false
                                          /\ Aircraft e = name)
                               then days_counted e else 0) event_list)
  /\ (forall e, End_ e <= Start e -> days_counted e = 0)
  /\ (forall e, Start e < End_ e ->
        Datetime.days (days_counted e - 1) < End_ e - Start e
        <= Datetime.days (days_counted e)).
Proof.
  split_and!.
  - apply usage_by_weekday_fold_filter.
  - intros name. unfold usage_by_weekday. rewrite usage_by_weekday_fold_total.
    unfold weekday_total. rewrite lookup_empty. simpl. done.
  - intros e Hle. unfold days_counted.
    pose proof (Z.div_pos (- (End_ e - Start e)) Datetime.day ltac:(lia) ltac:(done)).
    lia.
  - intros e Hlt. unfold days_counted, Datetime.days.
    pose proof (Z.div_mod (- (End_ e - Start e)) Datetime.day ltac:(done)) as H3.
    pose proof (Z.mod_pos_bound (- (End_ e - Start e)) Datetime.day ltac:(done)) as H4.
    unfold Datetime.day in *. nia.
Qed.

Lemma usage_by_weekday_totals_witness :
  let e := {| Aircraft := "N123"; Location := "KAAA";
              Start := Datetime.make 2024 1 5 10 0 0;
              End_ := Datetime.make 2024 1 5 10 0 0;
              Type_ := "Reservation"; Tach_Total := "" |} in
  days_counted e = 0.
Proof.
  intros e.
  exact (proj1 (proj2 (proj2 (usage_by_weekday_totals []))) e
           ltac:(vm_compute; discriminate)).
Defined.

(** ** length_histogram, in general *)

Global Instance key_le_trans : Transitive key_le.
Proof. intros a b c. unfold key_le. lia. Qed.

Global Instance key_le_total : Total key_le.
Proof. intros a b. unfold key_le. lia. Qed.

Lemma strongly_sorted_strict (l : list (Z * Z)) :
  StronglySorted key_le l -> NoDup l.*1 -> StronglySorted key_lt l.
Proof.
  induction 1 as [|a l Hl IH Hall]; intros Hnd; [constructor|].
  simpl in Hnd. apply NoDup_cons in Hnd as [Ha Hnd].
  constructor; [by apply IH|].
  rewrite Forall_forall in Hall. apply Forall_forall. intros b Hb.
  specialize (Hall b Hb). unfold key_le, key_lt in *.
  assert (a.1 <> b.1); [|lia].
  intros Heq. apply Ha. rewrite Heq. by apply list_elem_of_fmap_2.
Qed.

Lemma histogram_fold_permutation event_list event_list' :
  event_list ≡ₚ event_list' ->
  foldl histogram_step ∅ event_list = foldl histogram_step ∅ event_list'.
Proof.
  intros Hperm. apply map_eq. intros hours.
  rewrite !histogram_lookup. simpl.
  by rewrite (filter_length_agree (lands_in hours) (lands_in hours)
                event_list event_list' Hperm).
Qed.

Lemma histogram_fold_filter results event_list :
  foldl histogram_step results event_list
  = foldl histogram_step results
      (filter (fun e => is_event_maintenance e = false) event_list).
Proof.
  revert results. induction event_list as [|e l IH]; intros results; [done|].
  rewrite filter_cons. simpl. destruct (is_event_maintenance e) eqn:Hm; simpl.
  - rewrite IH. unfold histogram_step at 2. by rewrite Hm.
  - by rewrite IH.
Qed.

(** The histogram is in strictly ascending order of its buckets, does not
    depend on the order of the events and is that of the events that are not
    maintenance. *)
Theorem length_histogram_sorted_stable event_list :
  StronglySorted key_lt (length_histogram event_list)
  /\ (forall event_list',
        event_list ≡ₚ event_list' ->
        length_histogram event_list = length_histogram event_list')
  /\ length_histogram event_list
     = length_histogram (filter (fun e => is_event_maintenance e = false) event_list).
Proof.
  unfold length_histogram. split_and!.
  - apply strongly_sorted_strict.
    + apply StronglySorted_merge_sort; apply _.
    + rewrite merge_sort_Permutation. apply NoDup_fst_map_to_list.
  - intros event_list' Hperm. by rewrite (histogram_fold_permutation _ _ Hperm).
  - by rewrite histogram_fold_filter.
Qed.

Lemma length_histogram_sorted_stable_witness :
  let e1 := {| Aircraft := "N123"; Location := "KAAA";
               Start := Datetime.make 2024 1 5 8 0 0;
               End_ := Datetime.make 2024 1 5 10 0 0;
               Type_ := "Reservation"; Tach_Total := "1.5" |} in
  let e2 := {| Aircraft := "N456"; Location := "KAAA";
               Start := Datetime.make 2024 1 7 9 0 0;
               End_ := Datetime.make 2024 1 7 9 30 0;
               Type_ := "Reservation"; Tach_Total := "0.4" |} in
  length_histogram [e1; e2] = length_histogram [e2; e1].
Proof.
  intros e1 e2.
  exact (proj1 (proj2 (length_histogram_sorted_stable [e1; e2])) [e2; e1]
           (perm_swap e2 e1 [])).
Defined.

(** ** gather_metadata, in general *)

Lemma metadata_fold_filter st event_list :
  foldl metadata_step st event_list
  = foldl metadata_step st (filter qualifying event_list).
Proof.
  revert st. induction event_list as [|e l IH]; intros st; [done|].
  rewrite filter_cons. simpl. destruct (decide (qualifying e)) as [Hq|Hq]; simpl.
  - by rewrite IH.
  - by rewrite metadata_step_skip, IH.
Qed.

(** The events that do not qualify change nothing but the number of events;
    and when no qualifying event ends before it starts, the end date is not
    before the start date and the length in days is not negative. *)
Theorem gather_metadata_qualifying_only event_list md :
  gather_metadata event_list = Ok md ->
  gather_metadata (filter qualifying event_list)
  = Ok {| start_date := start_date md; end_date := end_date md;
          length_days := length_days md;
          num_events := length (filter qualifying event_list) |}
  /\ (Forall (fun e => qualifying e -> Start e <= End_ e) event_list ->
      start_date md <= end_date md /\ 0 <= length_days md).
Proof.
  intros Hmd. split.
  - unfold gather_metadata in *. rewrite <- metadata_fold_filter.
    destruct (foldl metadata_step (None, None) event_list) as [[first|] [last|]];
      try done.
    by injection Hmd as <-.
  - intros Hwf. pose proof (metadata_loop_inv event_list) as Hinv.
    unfold gather_metadata in Hmd.
    destruct (foldl metadata_step (None, None) event_list) as [[first|] [last|]];
      try done.
    injection Hmd as <-. simpl. simpl in Hinv.
    destruct Hinv as (_ & [Hl Hlq] & Hall).
    destruct (Hall last Hl Hlq) as [Hs _].
    rewrite Forall_forall in Hwf. specialize (Hwf last Hl Hlq).
    split; [lia|]. apply Z.div_pos; [lia|done].
Qed.

Lemma gather_metadata_qualifying_only_witness :
  let e := {| Aircraft := "N123"; Location := "KAAA";
              Start := Datetime.make 2024 1 5 10 0 0;
              End_ := Datetime.make 2024 1 5 11 30 0;
              Type_ := "Reservation"; Tach_Total := "1.2" |} in
  let m := {| Aircraft := "N123"; Location := "KAAA";
              Start := Datetime.make 2024 1 1 10 0 0;
              End_ := Datetime.make 2024 1 9 11 30 0;
              Type_ := "Maintenance"; Tach_Total := "" |} in
  gather_metadata (filter qualifying [m; e])
  = Ok {| start_date := Start e; end_date := End_ e; length_days := 0;
          num_events := 1 |}.
Proof.
  intros e m.
  exact (proj1 (gather_metadata_qualifying_only [m; e]
                  {| start_date := Start e; end_date := End_ e; length_days := 0;
                     num_events := 2 |} eq_refl)).
Defined.

(** ** The storage of the sweep, in general *)

Lemma sweep_step_usage_nonneg per airports st event :
  (forall airport, 0 <= counter_get airport (airport_usage st)) ->
  forall airport, 0 <= counter_get airport (airport_usage
                                              (sweep_step per airports st event)).
Proof.
  intros Hpos airport.
  destruct (decide (current_date st = Some (Datetime.date (Start event))))
    as [Hsame|Hnew].
  - destruct (sweep_step_same_day per airports st event Hsame) as [_ ->].
    case_decide; [done|]. rewrite counter_get_incr. specialize (Hpos airport).
    case_decide; lia.
  - destruct (sweep_step_new_day per airports st event Hnew) as [_ ->].
    rewrite counter_get_incr. unfold counter_get. rewrite lookup_empty. simpl.
    case_decide; lia.
Qed.

Lemma storage_inv_step per airports st event :
  storage_inv per airports st -> storage_inv per airports (sweep_step per airports st event).
Proof.
  intros [Hst Hpos]. split; [|by apply sweep_step_usage_nonneg].
  intros airport date v. rewrite sweep_step_storage.
  destruct (current_date st) as [current|]; [|apply Hst].
  case_decide; [apply Hst|].
  rewrite recorded_change_day. intros Hrec.
  assert (forall airport', airport' ∈ airports ->
            airport ∈ airports ->
            is_Some (recorded
                       (change_day per airports current (Datetime.date (Start event))
                          (airport_usage st)
                          (available_aircraft_by_airport_and_date st))
                       airport' date)
            \/ (~ (Datetime.date (Start event) - current > 1
                   /\ current <= date < Datetime.date (Start event))
                /\ current <> date)) as Hsame.
  { intros airport' Hin' Hin. rewrite recorded_change_day.
    destruct (decide (Datetime.date (Start event) - current > 1
                      /\ current <= date < Datetime.date (Start event))) as [Hg|Hg].
    - left. rewrite decide_True by (split; [done|tauto]). by eexists.
    - destruct (decide (current = date)) as [->|Hd]; [|by right].
      left. rewrite decide_False by tauto. rewrite decide_True by done. by eexists. }
  repeat case_decide.
  - injection Hrec as <-. split_and!; [tauto|lia|].
    intros airport' Hin'. destruct (Hsame airport' Hin') as [?|[Hg _]]; [tauto|done|].
    exfalso. apply Hg. tauto.
  - injection Hrec as <-. specialize (Hpos airport). split_and!; [tauto|lia|].
    intros airport' Hin'. destruct (Hsame airport' Hin') as [?|[_ Hd]]; [tauto|done|].
    exfalso. apply Hd. tauto.
  - destruct (Hst _ _ _ Hrec) as (Hin & Hle & Hall). split_and!; [done..|].
    intros airport' Hin'. destruct (Hsame airport' Hin' Hin) as [?|[Hg Hd]]; [done|].
    rewrite recorded_change_day.
    rewrite decide_False by tauto. rewrite decide_False by tauto. by apply Hall.
Qed.

Lemma storage_inv_sweep per airports event_list :
  storage_inv per airports (sweep per airports event_list).
Proof.
  induction event_list as [|e l IH] using rev_ind.
  - split; simpl.
    + intros airport date v. by rewrite recorded_empty.
    + intros airport. unfold counter_get. by rewrite lookup_empty.
  - rewrite sweep_snoc. by apply storage_inv_step.
Qed.

(** Whatever the events, an availability in the storage is for an airport of
    the list, is at most [aircraft_per_airport], and comes with one for the
    same date for every airport of the list. *)
Theorem availability_storage_entries per airports event_list airport date v :
  recorded (available_aircraft_by_airport_and_date (sweep per airports event_list))
           airport date = Some v ->
  airport ∈ airports
  /\ v <= per
  /\ forall airport', airport' ∈ airports ->
       is_Some (recorded (available_aircraft_by_airport_and_date
                            (sweep per airports event_list)) airport' date).
Proof.
  intros Hrec. destruct (storage_inv_sweep per airports event_list) as [Hst _].
  by apply Hst.
Qed.

Lemma availability_storage_entries_witness :
  let e1 := {| Aircraft := "N1"; Location := "KAAA";
               Start := Datetime.make 2024 1 1 9 0 0;
               End_ := Datetime.make 2024 1 1 10 0 0;
               Type_ := "Reservation"; Tach_Total := "1.0" |} in
  let e2 := {| Aircraft := "N2"; Location := "KBBB";
               Start := Datetime.make 2024 1 2 9 0 0;
               End_ := Datetime.make 2024 1 2 10 0 0;
               Type_ := "Reservation"; Tach_Total := "1.0" |} in
  "KAAA" ∈ ["KAAA"; "KBBB"] /\ 0 <= 1.
Proof.
  intros e1 e2.
  destruct (availability_storage_entries 1 ["KAAA"; "KBBB"] [e1; e2] "KAAA" 738886 0
              ltac:(vm_compute; reflexivity)) as (Hin & Hle & _).
  split; [exact Hin | exact Hle].
Defined.

(** ** The dates of the storage, for events in order *)

Lemma dates_inv_step per airports first st event :
  dates_inv airports first st ->
  (forall current, current_date st = Some current ->
                   current <= Datetime.date (Start event)) ->
  dates_inv airports first (sweep_step per airports st event).
Proof.
  intros (current & Hcur & Hfirst & Hdates) Hle. specialize (Hle current Hcur).
  exists (Datetime.date (Start event)). split_and!.
  - apply sweep_step_current_date.
  - lia.
  - intros airport date Hin. rewrite sweep_step_storage, Hcur.
    case_decide as Hsame; [subst; by apply Hdates|].
    rewrite recorded_change_day. specialize (Hdates airport date Hin).
    destruct (decide (airport ∈ airports
                      /\ Datetime.date (Start event) - current > 1
                      /\ current <= date < Datetime.date (Start event)))
      as [Hg|Hg].
    { split; [lia|by eexists]. }
    destruct (decide (airport ∈ airports /\ current = date)) as [Hd|Hd].
    { split; [lia|by eexists]. }
    rewrite Hdates. split; [lia|]. intros Hrange.
    destruct (decide (date < current)); [lia|]. exfalso.
    destruct (decide (Datetime.date (Start event) - current > 1)) as [Hgap|Hgap].
    + apply Hg. split; [done|]. split; [done|lia].
    + apply Hd. split; [done|lia].
Qed.

Lemma dates_inv_sorted per airports first event_list st :
  dates_inv airports first st ->
  Sorted start_le event_list ->
  (forall current e, current_date st = Some current -> head event_list = Some e ->
                     current <= Datetime.date (Start e)) ->
  dates_inv airports first (foldl (sweep_step per airports) st event_list).
Proof.
  revert st. induction event_list as [|e l IH]; intros st Hinv Hsorted Hhead; [done|].
  apply Sorted_inv in Hsorted as [Hsorted Hrel]. simpl. apply IH; [|done|].
  - apply dates_inv_step; [done|]. intros current Hcur. by apply Hhead.
  - intros current e' Hcur He'. rewrite sweep_step_current_date in Hcur.
    injection Hcur as <-. destruct l as [|e'' l]; [done|].
    injection He' as ->. apply HdRel_inv in Hrel. by apply date_mono.
Qed.

(** For events in ascending order of their start, every airport of the list
    has an entry for each date from that of the first event to the day
    before that of the last event, and for no other date. *)
Theorem availability_dates_recorded per airports event_list first_event last_event :
  Sorted start_le event_list ->
  head event_list = Some first_event ->
  last event_list = Some last_event ->
  forall airport date,
    airport ∈ airports ->
    (is_Some (recorded (available_aircraft_by_airport_and_date
                          (sweep per airports event_list)) airport date)
     <-> Datetime.date (Start first_event) <= date
         < Datetime.date (Start last_event)).
Proof.
  intros Hsorted Hhead Hlast airport date Hin.
  destruct event_list as [|e l]; [done|]. injection Hhead as ->.
  apply Sorted_inv in Hsorted as [Hsorted Hrel].
  assert (dates_inv airports (Datetime.date (Start first_event))
            (sweep_step per airports sweep_init first_event)) as Hinit.
  { exists (Datetime.date (Start first_event)). split_and!.
    - apply sweep_step_current_date.
    - lia.
    - intros a d _. rewrite sweep_step_storage. simpl. rewrite recorded_empty.
      split; [by intros [? [=]]|lia]. }
  pose proof (dates_inv_sorted per airports _ l _ Hinit Hsorted) as Hinv.
  destruct Hinv as (current & Hcur & _ & Hdates).
  { intros current e' Hcur He'. rewrite sweep_step_current_date in Hcur.
    injection Hcur as <-. destruct l as [|e'' l]; [done|].
    injection He' as ->. apply HdRel_inv in Hrel. by apply date_mono. }
  change (foldl (sweep_step per airports)
            (sweep_step per airports sweep_init first_event) l)
    with (sweep per airports (first_event :: l)) in *.
  rewrite sweep_current_date, Hlast in Hcur. injection Hcur as <-.
  by apply Hdates.
Qed.

Lemma availability_dates_recorded_witness :
  let e1 := {| Aircraft := "N1"; Location := "KAAA";
               Start := Datetime.make 2024 1 1 9 0 0;
               End_ := Datetime.make 2024 1 1 10 0 0;
               Type_ := "Reservation"; Tach_Total := "1.0" |} in
  let e2 := {| Aircraft := "N2"; Location := "KBBB";
               Start := Datetime.make 2024 1 4 9 0 0;
               End_ := Datetime.make 2024 1 4 10 0 0;
               Type_ := "Reservation"; Tach_Total := "1.0" |} in
  is_Some (recorded (available_aircraft_by_airport_and_date
                       (sweep 1 ["KAAA"; "KBBB"] [e1; e2])) "KBBB" 738888).
Proof.
  intros e1 e2.
  apply (proj2 (availability_dates_recorded 1 ["KAAA"; "KBBB"] [e1; e2] e1 e2
                  ltac:(repeat first [apply Sorted_cons | apply Sorted_nil
                                     | apply HdRel_cons | apply HdRel_nil];
                        vm_compute; discriminate)
                  eq_refl eq_refl "KBBB" 738888
                  ltac:(apply list_elem_of_further, list_elem_of_here))).
  replace (Datetime.date (Start e1)) with 738886 by (vm_compute; reflexivity).
  replace (Datetime.date (Start e2)) with 738889 by (vm_compute; reflexivity).
  lia.
Defined.

(** ** The gap, the rest of a day, a single day *)

(** The dates skipped between an event and the next, more than a day later,
    get [aircraft_per_airport] for every airport of the list, when the
    events that follow start no earlier than the next. *)
Theorem availability_gap_filled per airports pre prev next rest airport date :
  Datetime.date (Start prev) < date < Datetime.date (Start next) ->
  Forall (fun e => Datetime.date (Start next) <= Datetime.date (Start e)) rest ->
  airport ∈ airports ->
  recorded (available_aircraft_by_airport_and_date
              (sweep per airports (pre ++ prev :: next :: rest))) airport date
  = Some per.
Proof.
  intros Hgap Hrest Hin.
  replace (pre ++ prev :: next :: rest) with ((pre ++ [prev]) ++ next :: rest)
    by (by rewrite <- app_assoc).
  unfold sweep. rewrite foldl_app. simpl. fold (sweep per airports (pre ++ [prev])).
  rewrite (recorded_kept_later _ _ _ _ (Datetime.date (Start next)));
    [|apply sweep_step_current_date|lia|].
  2:{ eapply Forall_impl; [done|]. simpl. intros e He. lia. }
  rewrite sweep_step_storage, sweep_snoc, sweep_step_current_date.
  rewrite decide_False by lia.
  rewrite recorded_change_day. rewrite decide_True; [done|].
  split; [done|]. lia.
Qed.

Lemma availability_gap_filled_witness :
  let e1 := {| Aircraft := "N1"; Location := "KAAA";
               Start := Datetime.make 2024 1 1 9 0 0;
               End_ := Datetime.make 2024 1 1 10 0 0;
               Type_ := "Reservation"; Tach_Total := "1.0" |} in
  let e2 := {| Aircraft := "N2"; Location := "KBBB";
               Start := Datetime.make 2024 1 4 9 0 0;
               End_ := Datetime.make 2024 1 4 10 0 0;
               Type_ := "Reservation"; Tach_Total := "1.0" |} in
  recorded (available_aircraft_by_airport_and_date
              (sweep 1 ["KAAA"; "KBBB"] ([] ++ e1 :: e2 :: []))) "KBBB" 738888
  = Some 1.
Proof.
  intros e1 e2.
  apply (availability_gap_filled 1 ["KAAA"; "KBBB"] [] e1 e2 [] "KBBB" 738888).
  - replace (Datetime.date (Start e1)) with 738886 by (vm_compute; reflexivity).
    replace (Datetime.date (Start e2)) with 738889 by (vm_compute; reflexivity).
    lia.
  - constructor.
  - apply list_elem_of_further, list_elem_of_here.
Defined.

(** The events that follow an event on its date change nothing in the
    result: what happens on the last day does not reach the report. *)
Theorem availability_rest_of_day_ignored event_list event rest aircraft airports :
  Forall (fun e => Datetime.date (Start e) = Datetime.date (Start event)) rest ->
  aircraft_available_by_airport_and_weekday
    (event_list ++ event :: rest) aircraft airports
  = aircraft_available_by_airport_and_weekday
      (event_list ++ [event]) aircraft airports.
Proof.
  intros Hrest. unfold aircraft_available_by_airport_and_weekday.
  destruct (divmod _ _) as [[per m]|]; [|done].
  by rewrite sweep_rest_of_day.
Qed.

Lemma availability_rest_of_day_ignored_witness :
  let e1 := {| Aircraft := "N1"; Location := "KAAA";
               Start := Datetime.make 2024 1 1 9 0 0;
               End_ := Datetime.make 2024 1 1 10 0 0;
               Type_ := "Reservation"; Tach_Total := "1.0" |} in
  let e2 := {| Aircraft := "N2"; Location := "KAAA";
               Start := Datetime.make 2024 1 1 12 0 0;
               End_ := Datetime.make 2024 1 1 13 0 0;
               Type_ := "Reservation"; Tach_Total := "1.0" |} in
  aircraft_available_by_airport_and_weekday ([] ++ e1 :: [e2]) ["N1"; "N2"] ["KAAA"]
  = aircraft_available_by_airport_and_weekday ([] ++ [e1]) ["N1"; "N2"] ["KAAA"].
Proof.
  intros e1 e2.
  apply (availability_rest_of_day_ignored [] e1 [e2] ["N1"; "N2"] ["KAAA"]).
  repeat constructor.
Defined.

(** When all the events start on one date the storage stays empty, and so
    does the result. *)
Theorem availability_single_day_empty event_list date aircraft airports r :
  Forall (fun e => Datetime.date (Start e) = date) event_list ->
  aircraft_available_by_airport_and_weekday event_list aircraft airports = Ok r ->
  r = ∅.
Proof.
  intros Hday. unfold aircraft_available_by_airport_and_weekday.
  destruct (divmod _ _) as [[per m]|]; [|done].
  case_bool_decide; [done|]. intros [= <-].
  assert (available_aircraft_by_airport_and_date (sweep per airports event_list) = ∅)
    as ->; [|apply fmap_empty].
  destruct event_list as [|e l]; [done|].
  apply Forall_cons in Hday as [He Hday]. unfold sweep. simpl.
  destruct (sweep_steps_same_date per airports l
              (sweep_step per airports sweep_init e) date) as [-> _]; [| |].
  - by rewrite sweep_step_current_date, He.
  - done.
  - by rewrite sweep_step_storage.
Qed.

Lemma availability_single_day_empty_witness :
  let e1 := {| Aircraft := "N1"; Location := "KAAA";
               Start := Datetime.make 2024 1 1 9 0 0;
               End_ := Datetime.make 2024 1 1 10 0 0;
               Type_ := "Reservation"; Tach_Total := "1.0" |} in
  aircraft_available_by_airport_and_weekday [e1] ["N1"] ["KAAA"] = Ok ∅.
Proof.
  intros e1.
  destruct (aircraft_available_by_airport_and_weekday [e1] ["N1"] ["KAAA"])
    as [r|x] eqn:Hr; [|vm_compute in Hr; discriminate].
  f_equal.
  apply (availability_single_day_empty [e1] (Datetime.date (Start e1))
           ["N1"] ["KAAA"] r); [repeat constructor|exact Hr].
Defined.

(** ** The weekday means *)

Lemma weekday_counts_items (items : list (Z * Z)) dow :
  foldr (fun item acc =>
           <[Datetime.date_strftime_A item.1 :=
               default [] (acc !! Datetime.date_strftime_A item.1) ++ [item.2]]> acc)
        (∅ : gmap string (list Z)) items !! dow
  = match (filter (fun item => Datetime.date_strftime_A item.1 = dow) items).*2 with
    | [] => None
    | v => Some (reverse v)
    end.
Proof.
  induction items as [|[d c] items IH]; simpl; [done|].
  rewrite filter_cons, lookup_insert. simpl.
  destruct (decide (Datetime.date_strftime_A d = dow)) as [->|Hne]; [|done].
  simpl. rewrite IH. rewrite reverse_cons. f_equal.
  change (list_fmap (Z * Z)%type Z snd ?l) with (l.*2).
  destruct ((filter (fun item : Z * Z => Datetime.date_strftime_A item.1 = dow)
                    items).*2) as [|z l]; [done|].
  reflexivity.
Qed.

Lemma weekday_counts_lookup date_list dow :
  weekday_counts date_list !! dow
  = match counts_on dow date_list with
    | [] => None
    | v => Some (reverse v)
    end.
Proof.
  unfold weekday_counts, counts_on. rewrite map_fold_foldr.
  rewrite <- weekday_counts_items. f_equal.
  induction (map_to_list date_list) as [|[d c] items IH]; simpl; [done|].
  by rewrite IH.
Qed.

Lemma mean_reverse counts : mean (reverse counts) = mean counts.
Proof.
  unfold mean. rewrite length_reverse.
  by rewrite (foldr_add_permutation _ _ (reverse_Permutation counts)).
Qed.

Lemma mean_exact counts :
  counts <> [] ->
  (mean counts == inject_Z (foldr Z.add 0%Z counts)
                  / inject_Z (Z.of_nat (length counts)))%Q.
Proof.
  intros Hne. unfold mean. rewrite Qred_correct, Qmake_Qdiv.
  destruct counts as [|c counts]; [done|].
  replace (Z.pos (Pos.of_nat (length (c :: counts))))
    with (Z.of_nat (length (c :: counts))) by (simpl length; lia).
  reflexivity.
Qed.

(** The mean of an airport and a weekday in the result is the arithmetic
    mean of the availabilities recorded for the airport on the dates of that
    weekday, and a weekday without such a date has no key. *)
Theorem weekday_means_lookup storage airport date_list dow :
  storage !! airport = Some date_list ->
  (weekday_means storage !! airport ≫= (fun means => means !! dow))
  = (if decide (counts_on dow date_list = []) then None
     else Some (mean (counts_on dow date_list)))
  /\ (counts_on dow date_list <> [] ->
      (mean (counts_on dow date_list)
       == inject_Z (foldr Z.add 0%Z (counts_on dow date_list))
          / inject_Z (Z.of_nat (length (counts_on dow date_list))))%Q).
Proof.
  intros Hst. split; [|apply mean_exact].
  unfold weekday_means. rewrite lookup_fmap, Hst. simpl.
  rewrite lookup_fmap, weekday_counts_lookup.
  destruct (counts_on dow date_list) as [|c v] eqn:Hv; [done|].
  rewrite decide_False by done. simpl. f_equal. apply mean_reverse.
Qed.

Lemma weekday_means_lookup_witness :
  (weekday_means {[ "KAAA" := {[ 738886 := 1; 738893 := 2 ]} ]} !! "KAAA"
     ≫= (fun means => means !! "Monday"))
  = Some (3 # 2)%Q.
Proof.
  rewrite (proj1 (weekday_means_lookup
                    {[ "KAAA" := {[ 738886 := 1; 738893 := 2 ]} ]} "KAAA"
                    {[ 738886 := 1; 738893 := 2 ]} "Monday"
                    ltac:(apply lookup_singleton_eq))).
  vm_compute. reflexivity.
Defined.

Lemma gather_distinct_first_seen_witness :
  let e1 := {| Aircraft := "N1"; Location := "KAAA";
               Start := Datetime.make 2024 1 1 9 0 0;
               End_ := Datetime.make 2024 1 1 10 0 0;
               Type_ := "Reservation"; Tach_Total := "1.0" |} in
  let e2 := {| Aircraft := "N2"; Location := "KAAA";
               Start := Datetime.make 2024 1 1 12 0 0;
               End_ := Datetime.make 2024 1 1 13 0 0;
               Type_ := "Reservation"; Tach_Total := "1.0" |} in
  gather_aircraft [e1] `prefix_of` gather_aircraft ([e1] ++ [e2]).
Proof.
  intros e1 e2.
  exact (proj2 (proj2 (gather_distinct_first_seen Aircraft ([e1] ++ [e2])))
           [e1] [e2] eq_refl).
Defined.

(** ** usage_by_weekday, by weekday *)

Lemma while_lt_iterations (n : nat) x stop :
  iterations Datetime.day x stop = n ->
  while_lt Datetime.day x stop
  = (fun k => x + Datetime.days k) <$> seqZ 0 (Z.of_nat n).
Proof.
  revert x. induction n as [|n IH]; intros x Hn.
  - unfold while_lt. by rewrite Hn.
  - destruct (decide (x < stop)) as [Hlt|Hge].
    2:{ rewrite iterations_done in Hn by (done || lia). done. }
    rewrite iterations_turn in Hn by done.
    rewrite while_lt_turn by done. rewrite (IH (x + Datetime.day)) by lia.
    rewrite (seqZ_cons 0 (Z.of_nat (S n))) by lia.
    replace (Z.pred (Z.of_nat (S n))) with (Z.of_nat n) by lia.
    rewrite fmap_cons. f_equal; [days_lia|].
    replace (seqZ (Z.succ 0) (Z.of_nat n)) with (Z.add 1 <$> seqZ 0 (Z.of_nat n))
      by (by rewrite fmap_add_seqZ).
    rewrite <- list_fmap_compose. apply list_fmap_ext. intros _ k _. simpl.
    days_lia.
Qed.

Lemma while_lt_days_counted event :
  while_lt Datetime.day (Start event) (End_ event)
  = (fun k => Start event + Datetime.days k) <$> seqZ 0 (days_counted event).
Proof.
  rewrite <- iterations_days_counted. by apply while_lt_iterations.
Qed.

Lemma filter_fmap_length {A B} (f : A -> B) (P : B -> Prop)
    `{!forall y, Decision (P y)} (l : list A) :
  length (filter P (f <$> l)) = length (filter (fun x => P (f x)) l).
Proof.
  induction l as [|x l IH]; [done|]. rewrite fmap_cons, !filter_cons.
  destruct (decide (P (f x))); simpl length; by rewrite IH.
Qed.

Lemma usage_by_weekday_fold_count st event_list name dow :
  weekday_count (foldl usage_weekday_step st event_list) name dow
  = weekday_count st name dow
    + sum_events (fun e => if decide (is_event_maintenance e = false
                                      /\ Aircraft e = name)
                           then days_on dow e else 0) event_list.
Proof.
  revert st. induction event_list as [|e l IH]; intros st; simpl; [lia|].
  rewrite IH. clear IH. destruct (is_event_maintenance e) eqn:Hm.
  - unfold usage_weekday_step. rewrite Hm.
    rewrite decide_False by (by intros [? _]). lia.
  - rewrite usage_weekday_step_count by done.
    destruct (decide (name = Aircraft e)) as [->|Hne].
    + rewrite decide_True by done. unfold days_on.
      rewrite while_lt_days_counted, filter_fmap_length. lia.
    + rewrite decide_False by (intros [_ ?]; congruence). lia.
Qed.

Lemma sum_events_permutation f event_list event_list' :
  event_list ≡ₚ event_list' -> sum_events f event_list = sum_events f event_list'.
Proof. unfold sum_events. induction 1; simpl; lia. Qed.

(** The counter of an aircraft and a weekday is the number of days of that
    weekday among the days of its events that are not maintenance, the days
    of an event being those at its start, 24 hours later, and so on, for as
    many days as its length rounded up; the counters do not depend on the
    order of the events. *)
Theorem usage_by_weekday_counts event_list :
  (forall name dow,
      weekday_count (usage_by_weekday event_list) name dow
      = sum_events (fun e => if decide (is_event_maintenance e = false
                                        /\ Aircraft e = name)
                             then days_on dow e else 0) event_list)
  /\ (forall event_list' name dow,
        event_list ≡ₚ event_list' ->
        weekday_count (usage_by_weekday event_list) name dow
        = weekday_count (usage_by_weekday event_list') name dow).
Proof.
  assert (forall l name dow,
      weekday_count (usage_by_weekday l) name dow
      = sum_events (fun e => if decide (is_event_maintenance e = false
                                        /\ Aircraft e = name)
                             then days_on dow e else 0) l) as Hcount.
  { intros l name dow. unfold usage_by_weekday.
    rewrite usage_by_weekday_fold_count. unfold weekday_count at 1.
    rewrite lookup_empty. simpl. unfold counter_get. by rewrite lookup_empty. }
  split; [done|]. intros event_list' name dow Hperm.
  rewrite !Hcount. by apply sum_events_permutation.
Qed.

Lemma usage_by_weekday_counts_witness :
  let e1 := {| Aircraft := "N1"; Location := "KAAA";
               Start := Datetime.make 2024 1 1 9 0 0;
               End_ := Datetime.make 2024 1 1 10 0 0;
               Type_ := "Reservation"; Tach_Total := "1.0" |} in
  let e2 := {| Aircraft := "N1"; Location := "KAAA";
               Start := Datetime.make 2024 1 8 12 0 0;
               End_ := Datetime.make 2024 1 8 13 0 0;
               Type_ := "Reservation"; Tach_Total := "1.0" |} in
  weekday_count (usage_by_weekday [e1; e2]) "N1" "Monday"
  = weekday_count (usage_by_weekday [e2; e1]) "N1" "Monday".
Proof.
  intros e1 e2.
  exact (proj2 (usage_by_weekday_counts [e1; e2]) [e2; e1] "N1" "Monday"
           (perm_swap e2 e1 [])).
Defined.

(** ** The last day and the result *)

Lemma mean_permutation counts counts' :
  counts ≡ₚ counts' -> mean counts = mean counts'.
Proof.
  intros Hperm. unfold mean.
  by rewrite (foldr_add_permutation _ _ Hperm), (Permutation_length Hperm).
Qed.

(** For events in ascending order, the dates with an entry are those from
    the date of the first event to the day before that of the last. *)
Lemma sweep_dates_inv per airports event_list first_event :
  Sorted start_le event_list ->
  head event_list = Some first_event ->
  dates_inv airports (Datetime.date (Start first_event))
            (sweep per airports event_list).
Proof.
  intros Hsorted Hhead.
  destruct event_list as [|e l]; [done|]. injection Hhead as ->.
  apply Sorted_inv in Hsorted as [Hsorted Hrel].
  unfold sweep. simpl. apply dates_inv_sorted; [|done|].
  - exists (Datetime.date (Start first_event)). split_and!.
    + apply sweep_step_current_date.
    + lia.
    + intros a d _. rewrite sweep_step_storage. simpl. rewrite recorded_empty.
      split; [by intros [? [=]]|lia].
  - intros current e' Hcur He'. rewrite sweep_step_current_date in Hcur.
    injection Hcur as <-. destruct l as [|e'' l]; [done|].
    injection He' as ->. apply HdRel_inv in Hrel. by apply date_mono.
Qed.

Lemma elem_of_dates_on dow first final date :
  date ∈ dates_on dow first final
  <-> Datetime.date_strftime_A date = dow /\ first <= date < final.
Proof.
  unfold dates_on. rewrite list_elem_of_filter, elem_of_seqZ.
  split; intros [? ?]; split; (done || lia).
Qed.

(** The counts of a weekday, for a date list whose dates are those from
    [first] to the day before [final]. *)
Lemma counts_on_dates dow first final (date_list : gmap Z Z) :
  (forall date, is_Some (date_list !! date) <-> first <= date < final) ->
  counts_on dow date_list
  ≡ₚ (fun date => default 0 (date_list !! date)) <$> dates_on dow first final.
Proof.
  intros Hdates. unfold counts_on.
  assert (filter (fun item : Z * Z => Datetime.date_strftime_A item.1 = dow)
                 (map_to_list date_list)
          ≡ₚ (fun date => (date, default 0 (date_list !! date)))
               <$> dates_on dow first final) as ->.
  - apply NoDup_Permutation.
    + apply NoDup_filter, NoDup_map_to_list.
    + apply NoDup_fmap_2.
      * intros d d' [= ? _]. done.
      * apply NoDup_filter, NoDup_seqZ.
    + intros [d v]. rewrite list_elem_of_filter, elem_of_map_to_list.
      rewrite list_elem_of_fmap. simpl. split.
      * intros [Hname Hv]. exists d. rewrite Hv. split; [done|].
        apply elem_of_dates_on. split; [done|]. apply Hdates. by exists v.
      * intros (d' & [= <- ->] & Hin). apply elem_of_dates_on in Hin as [Hname Hin].
        split; [done|]. apply Hdates in Hin as [v ->]. done.
  - rewrite <- list_fmap_compose. done.
Qed.

Lemma day_name_inj a b :
  0 <= a < 7 -> 0 <= b < 7 -> Datetime.day_name a = Datetime.day_name b -> a = b.
Proof.
  intros Ha Hb.
  assert (a = 0 \/ a = 1 \/ a = 2 \/ a = 3 \/ a = 4 \/ a = 5 \/ a = 6) as Ca by lia.
  assert (b = 0 \/ b = 1 \/ b = 2 \/ b = 3 \/ b = 4 \/ b = 5 \/ b = 6) as Cb by lia.
  destruct Ca as [->|[->|[->|[->|[->|[->| ->]]]]]];
    destruct Cb as [->|[->|[->|[->|[->|[->| ->]]]]]]; simpl; (done || discriminate).
Qed.

(** In less than a week before a date no date falls on its weekday. *)
Lemma dates_on_final_nil first final :
  final - first < 7 -> dates_on (Datetime.date_strftime_A final) first final = [].
Proof.
  intros Hweek.
  destruct (dates_on (Datetime.date_strftime_A final) first final) as [|d l] eqn:E;
    [done|].
  assert (d ∈ dates_on (Datetime.date_strftime_A final) first final) as Hin
      by (rewrite E; apply list_elem_of_here).
  apply elem_of_dates_on in Hin as [Hname Hin].
  apply day_name_inj in Hname; try apply date_weekday_range.
  unfold Datetime.date_weekday in Hname.
  assert ((d + 6) mod 7 = (final + 6) mod 7 -> (final - d) mod 7 = 0) as Hmod.
  { intros Heq. replace (final - d) with ((final + 6) - (d + 6)) by lia.
    by rewrite Zminus_mod, Heq, Z.sub_diag. }
  specialize (Hmod Hname). rewrite Z.mod_small in Hmod by lia. lia.
Qed.

(** The storage after the events of a day depends on the day through its
    date only. *)
Lemma sweep_last_day per airports l day day' date :
  day <> [] -> day' <> [] ->
  Forall (fun e => Datetime.date (Start e) = date) day ->
  Forall (fun e => Datetime.date (Start e) = date) day' ->
  available_aircraft_by_airport_and_date (sweep per airports (l ++ day))
  = available_aircraft_by_airport_and_date (sweep per airports (l ++ day')).
Proof.
  intros Hne Hne' Hday Hday'.
  destruct day as [|e rest]; [done|]. destruct day' as [|e' rest']; [done|].
  apply Forall_cons in Hday as [He Hrest]. apply Forall_cons in Hday' as [He' Hrest'].
  rewrite (sweep_rest_of_day per airports l e rest)
    by (eapply Forall_impl; [done|]; simpl; intros; congruence).
  rewrite (sweep_rest_of_day per airports l e' rest')
    by (eapply Forall_impl; [done|]; simpl; intros; congruence).
  rewrite !sweep_snoc, !sweep_step_storage. by rewrite He, He'.
Qed.

(** The result at an airport and a weekday, from the storage. *)
Lemma weekday_means_get storage airport dow :
  weekday_means storage !! airport ≫= (fun means => means !! dow)
  = match storage !! airport with
    | Some date_list =>
        match counts_on dow date_list with
        | [] => None
        | counts => Some (mean counts)
        end
    | None => None
    end.
Proof.
  unfold weekday_means. rewrite lookup_fmap.
  destruct (storage !! airport) as [date_list|]; [|done]. simpl.
  rewrite lookup_fmap, weekday_counts_lookup.
  destruct (counts_on dow date_list) as [|c v]; [done|].
  simpl. f_equal. apply mean_reverse.
Qed.

(** C3: for a list of events in ascending order of their start, with
    [first] the date of its first event and [final] the date of its last
    event, the storage has no entry at [final], for any airport, and the
    last day is absent from the result: the result has a mean for an airport
    and a weekday exactly when the airport is one of the list and a date
    from [first] to the day before [final] falls on the weekday; the mean is
    that of the entries of the storage at these dates; when the events span
    less than a week there is no mean for the weekday of [final]; and the
    result is the same whatever events make up the last day. *)
Theorem last_day_never_recorded event_list aircraft airports first_event last_event r :
  Sorted start_le event_list ->
  head event_list = Some first_event ->
  last event_list = Some last_event ->
  aircraft_available_by_airport_and_weekday event_list aircraft airports = Ok r ->
  let first := Datetime.date (Start first_event) in
  let final := Datetime.date (Start last_event) in
  let storage :=
    available_aircraft_by_airport_and_date
      (sweep (Z.of_nat (length aircraft) / Z.of_nat (length airports))
             airports event_list) in
  (forall airport, recorded storage airport final = None)
  /\ (forall airport dow,
        is_Some (r !! airport ≫= (fun means => means !! dow))
        <-> airport ∈ airports /\ dates_on dow first final <> [])
  /\ (forall airport dow m,
        r !! airport ≫= (fun means => means !! dow) = Some m ->
        exists counts,
          Forall2 (fun date count => recorded storage airport date = Some count)
                  (dates_on dow first final) counts
          /\ m = mean counts)
  /\ (final - first < 7 ->
      forall airport,
        r !! airport ≫= (fun means => means !! Datetime.date_strftime_A final)
        = None)
  /\ (forall l day day',
        event_list = l ++ day -> day' <> [] ->
        Forall (fun e => Datetime.date (Start e) = final) day ->
        Forall (fun e => Datetime.date (Start e) = final) day' ->
        aircraft_available_by_airport_and_weekday (l ++ day') aircraft airports
        = Ok r).
Proof.
  intros Hsorted Hhead Hlast Hcall first final storage.
  unfold aircraft_available_by_airport_and_weekday in Hcall.
  unfold divmod in Hcall. case_bool_decide as Hzero; [done|].
  case_bool_decide as Hmod; [done|]. injection Hcall as Hr.
  set (per := Z.of_nat (length aircraft) / Z.of_nat (length airports)) in *.
  fold storage in Hr.
  destruct (sweep_dates_inv per airports event_list first_event Hsorted Hhead)
    as (current & Hcur & Hle & Hdates).
  rewrite sweep_current_date, Hlast in Hcur. injection Hcur as <-.
  fold first final storage in Hle, Hdates.
  destruct (storage_inv_sweep per airports event_list) as [Hst _].
  fold storage in Hst.
  assert (forall airport, recorded storage airport final = None) as Hfinal.
  { intros airport. destruct (recorded storage airport final) as [v|] eqn:E; [|done].
    destruct (Hst _ _ _ E) as [Hin _].
    assert (first <= final < final); [|lia].
    apply (proj1 (Hdates airport final Hin)). by exists v. }
  assert (forall airport dow,
            r !! airport ≫= (fun means => means !! dow)
            = if decide (airport ∈ airports /\ dates_on dow first final <> [])
              then Some (mean ((fun date => default 0 (recorded storage airport date))
                                 <$> dates_on dow first final))
              else None) as Hget.
  { intros airport dow. rewrite <- Hr, weekday_means_get.
    destruct (storage !! airport) as [date_list|] eqn:Hlist.
    - assert (forall date, recorded storage airport date = date_list !! date) as Hrec
          by (intros date; unfold recorded; by rewrite Hlist).
      destruct (decide (airport ∈ airports)) as [Hin|Hout].
      + pose proof (counts_on_dates dow first final date_list) as Hperm.
        assert (forall date, is_Some (date_list !! date) <-> first <= date < final)
          as Hrange by (intros date; rewrite <- Hrec; exact (Hdates airport date Hin)).
        specialize (Hperm Hrange).
        destruct (dates_on dow first final) as [|d ds] eqn:Hds.
        * apply Permutation_nil_r in Hperm. rewrite Hperm.
          by rewrite decide_False by (by intros [_ ?]).
        * rewrite decide_True by done.
          destruct (counts_on dow date_list) as [|c cs] eqn:Hcs.
          { symmetry in Hperm. by apply Permutation_nil_r in Hperm. }
          f_equal. rewrite (mean_permutation _ _ Hperm). f_equal.
          apply list_fmap_ext. intros i date _. by rewrite Hrec.
      + rewrite decide_False by (by intros [? _]).
        destruct (counts_on dow date_list) as [|c cs] eqn:Hcs; [done|].
        exfalso. apply Hout.
        assert (c ∈ counts_on dow date_list) as Hc
            by (rewrite Hcs; apply list_elem_of_here).
        unfold counts_on in Hc. apply list_elem_of_fmap in Hc as ([d v] & -> & Hc).
        apply list_elem_of_filter in Hc as [_ Hc]. apply elem_of_map_to_list in Hc.
        simpl in Hc. rewrite <- Hrec in Hc. by destruct (Hst _ _ _ Hc) as [? _].
    - destruct (decide (airport ∈ airports /\ dates_on dow first final <> []))
        as [[Hin Hne]|]; [|done].
      exfalso. destruct (dates_on dow first final) as [|d ds] eqn:Hds; [done|].
      assert (d ∈ dates_on dow first final) as Hd
          by (rewrite Hds; apply list_elem_of_here).
      apply elem_of_dates_on in Hd as [_ Hd]. apply (proj2 (Hdates airport d Hin)) in Hd.
      unfold recorded in Hd. rewrite Hlist in Hd. by destruct Hd. }
  split_and!.
  - done.
  - intros airport dow. rewrite Hget.
    destruct (decide (airport ∈ airports /\ dates_on dow first final <> []));
      [by split|]. split; [by intros [? [=]]|done].
  - intros airport dow m. rewrite Hget.
    destruct (decide (airport ∈ airports /\ dates_on dow first final <> []))
      as [[Hin _]|]; [|done].
    intros [= <-]. eexists. split; [|done].
    apply Forall2_fmap_r, Forall_Forall2_diag, Forall_forall.
    intros date Hdate. apply elem_of_dates_on in Hdate as [_ Hdate].
    apply (proj2 (Hdates airport date Hin)) in Hdate as [v Hv].
    simpl. by rewrite Hv.
  - intros Hweek airport. rewrite Hget, dates_on_final_nil by done.
    by rewrite decide_False by (by intros [_ ?]).
  - intros l day day' -> Hne' Hday Hday'.
    unfold aircraft_available_by_airport_and_weekday, divmod.
    rewrite bool_decide_eq_false_2 by done. cbv beta iota.
    rewrite bool_decide_eq_false_2 by (intros Hm; by apply Hm).
    fold per. rewrite <- Hr. unfold storage. f_equal. f_equal.
    destruct (decide (day = [])) as [->|Hne].
    + rewrite app_nil_r in *. unfold sweep at 1. rewrite foldl_app.
      apply (sweep_steps_same_date per airports day' _ final); [|done].
      fold (sweep per airports l). by rewrite sweep_current_date, Hlast.
    + by apply (sweep_last_day per airports l day' day final).
Qed.

Lemma last_day_never_recorded_witness :
  let e1 := {| Aircraft := "N1"; Location := "KAAA";
               Start := Datetime.make 2024 1 1 9 0 0;
               End_ := Datetime.make 2024 1 1 10 0 0;
               Type_ := "Reservation"; Tach_Total := "1.0" |} in
  let e2 := {| Aircraft := "N2"; Location := "KAAA";
               Start := Datetime.make 2024 1 3 9 0 0;
               End_ := Datetime.make 2024 1 3 10 0 0;
               Type_ := "Reservation"; Tach_Total := "1.0" |} in
  let r := weekday_means
             (available_aircraft_by_airport_and_date
                (sweep 2 ["KAAA"] [e1; e2])) in
  aircraft_available_by_airport_and_weekday [e1; e2] ["N1"; "N2"] ["KAAA"] = Ok r
  /\ Datetime.date_strftime_A (Datetime.date (Start e2)) = "Wednesday"
  /\ r !! "KAAA" ≫= (fun means => means !! "Wednesday") = None.
Proof.
  intros e1 e2 r.
  assert (Sorted start_le [e1; e2]) as Hsorted.
  { repeat first [apply Sorted_cons | apply Sorted_nil
                 | apply HdRel_cons | apply HdRel_nil].
    vm_compute. discriminate. }
  assert (aircraft_available_by_airport_and_weekday [e1; e2] ["N1"; "N2"] ["KAAA"]
          = Ok r) as Hcall by reflexivity.
  assert (Datetime.date (Start e2) - Datetime.date (Start e1) < 7) as Hweek
      by (vm_compute; reflexivity).
  split_and!; [done|vm_compute; reflexivity|].
  exact (proj1 (proj2 (proj2 (proj2
           (last_day_never_recorded [e1; e2] ["N1"; "N2"] ["KAAA"] e1 e2 r
              Hsorted eq_refl eq_refl Hcall)))) Hweek "KAAA").
Defined.
